(** * SmartKhethi-API: fertilizer recommendation endpoint

    A shallow embedding of [api/index.py]: the reference table
    [SAMPLE_DATA], the weather adapter [get_weather_data] behind its
    [lru_cache], the engine [fertilizer_recommendation], the renderer
    [generate_farmer_message] and the route handler [get_recommendation].

    Python values that cross the provider boundary are kept dynamically
    typed ([pyval]).  Integers are exact; a float is a binary64 value (NaN,
    an infinity, or the rational it denotes) and float arithmetic rounds to
    nearest, ties to even, as the interpreter does.  Exceptions are values of
    [exn]; code that can raise and touch the weather cache runs in the monad
    [M].  Interpreter messages are those of CPython 3.11. *)

From Stdlib Require Import ZArith QArith Qminmax String Ascii List Bool Lia.
From Stdlib Require Import DecimalString Lqa.
Import ListNotations.
Local Open Scope string_scope.
Local Open Scope Z_scope.
Set Warnings "-register-all".

(** ** Python runtime values and exceptions *)

Module Py.

(** A binary64 value.  A finite float is identified with the rational it
    denotes (the two zeros are one value). *)
Inductive float : Type :=
| FNaN
| FInf (negative : bool)
| FFin (q : Q).

(** [n / d] rounded to the nearest integer, ties to even ([n >= 0], [d > 0]). *)
Definition round_half_even (n d : Z) : Z :=
  let q := n / d in
  match (2 * (n mod d) ?= d) with
  | Lt => q
  | Gt => q + 1
  | Eq => if Z.even q then q else q + 1
  end.

(** The [e] with [2^e <= n / d < 2^(e+1)] ([n, d > 0]). *)
Definition floor_log2 (n d : Z) : Z :=
  let e0 := Z.log2 n - Z.log2 d in
  let below := if 0 <=? e0 then d * 2 ^ e0 <=? n else d <=? n * 2 ^ (- e0) in
  if below then e0 else e0 - 1.

(** The binary64 value nearest to a real result: 53 significant bits, least
    exponent -1074 (gradual underflow), overflow to an infinity from
    2^1024 - 2^970 on. *)
Definition round64 (q : Q) : float :=
  let n := Z.abs (Qnum q) in
  let d := Zpos (Qden q) in
  if n =? 0 then FFin 0
  else
    let e := floor_log2 n d in
    let ex := Z.max (e - 52) (-1074) in
    let m := if 0 <=? ex then round_half_even n (d * 2 ^ ex)
             else round_half_even (n * 2 ^ (- ex)) d in
    if (971 <? ex) || ((ex =? 971) && (2 ^ 53 <=? m)) then FInf (Qnum q <? 0)
    else
      let s := if Qnum q <? 0 then -1 else 1 in
      FFin (Qred (if 0 <=? ex then inject_Z (s * m * 2 ^ ex)
                  else Qmake (s * m) (Z.to_pos (2 ^ (- ex))))).

(** Float addition and subtraction. *)
Definition fadd (x y : float) : float :=
  match x, y with
  | FNaN, _ | _, FNaN => FNaN
  | FInf a, FInf b => if Bool.eqb a b then FInf a else FNaN
  | FInf a, FFin _ | FFin _, FInf a => FInf a
  | FFin p, FFin q => round64 (p + q)
  end.

Definition fneg (x : float) : float :=
  match x with
  | FNaN => FNaN
  | FInf a => FInf (negb a)
  | FFin q => FFin (- q)
  end.

Definition fsub (x y : float) : float := fadd x (fneg y).

Definition Qgtb (x y : Q) : bool :=
  match (x ?= y)%Q with Gt => true | _ => false end.
Definition Qltb (x y : Q) : bool :=
  match (x ?= y)%Q with Lt => true | _ => false end.

(** Ordering and equality against a number: exact, and false on NaN. *)
Definition fgt (x : float) (n : Q) : bool :=
  match x with
  | FNaN => false
  | FInf negative => negb negative
  | FFin q => Qgtb q n
  end.

Definition flt (x : float) (n : Q) : bool :=
  match x with
  | FNaN => false
  | FInf negative => negative
  | FFin q => Qltb q n
  end.

Definition feq (x y : float) : bool :=
  match x, y with
  | FInf a, FInf b => Bool.eqb a b
  | FFin p, FFin q => Qeq_bool p q
  | _, _ => false
  end.

Definition is_finite (x : float) : bool :=
  match x with
  | FFin _ => true
  | _ => false
  end.

(** A Python number: [int] or [float]. *)
Inductive num : Type :=
| NInt (z : Z)
| NFloat (f : float).
Coercion NInt : Z >-> num.
Coercion NFloat : float >-> num.

(** The value a number is compared by. *)
Definition value (n : num) : float :=
  match n with
  | NInt z => FFin (inject_Z z)
  | NFloat f => f
  end.

(** A decoded JSON document, as [response.json()] returns it. *)
Inductive pyval : Type :=
| PNone
| PBool (b : bool)
| PNum (n : num)
| PStr (s : string)
| PList (items : list pyval)
| PDict (entries : list (string * pyval)).

(** The exception classes that can occur.  [KeyboardInterrupt] derives from
    [BaseException] only; every other class derives from [Exception],
    [HTTPException] (Starlette's) included. *)
Inductive exn : Type :=
| KeyError (key : string)
| TypeError (msg : string)
| AttributeError (msg : string)
| RequestException (msg : string)
| JSONDecodeError (msg : string)
| IndexError (msg : string)
| HTTPException (status_code : Z) (detail : string)
| KeyboardInterrupt.

Definition is_Exception (e : exn) : bool :=
  match e with
  | KeyboardInterrupt => false
  | _ => true
  end.

Definition str_of_int (z : Z) : string := NilZero.string_of_int (Z.to_int z).

(** [str(e)].  A [KeyError] prints the repr of its key; Starlette's
    [HTTPException.__str__] gives [f"{status_code}: {detail}"]. *)
Definition str_exn (e : exn) : string :=
  match e with
  | KeyError k => "'" ++ k ++ "'"
  | TypeError m | AttributeError m | RequestException m | JSONDecodeError m
  | IndexError m => m
  | HTTPException c d => str_of_int c ++ ": " ++ d
  | KeyboardInterrupt => ""
  end.

Inductive result (A : Type) : Type :=
| Ok (a : A)
| Raise (e : exn).
Arguments Ok {A} a.
Arguments Raise {A} e.

Definition rbind {A B} (r : result A) (k : A -> result B) : result B :=
  match r with
  | Ok a => k a
  | Raise e => Raise e
  end.

(** [type(v).__name__] *)
Definition type_name (v : pyval) : string :=
  match v with
  | PNone => "NoneType"
  | PBool _ => "bool"
  | PNum (NInt _) => "int"
  | PNum (NFloat _) => "float"
  | PStr _ => "str"
  | PList _ => "list"
  | PDict _ => "dict"
  end.

Fixpoint assoc (k : string) (d : list (string * pyval)) : option pyval :=
  match d with
  | [] => None
  | (k', v) :: rest => if String.eqb k' k then Some v else assoc k rest
  end.

(** [v[k]] for a string key [k]. *)
Definition getitem (v : pyval) (k : string) : result pyval :=
  match v with
  | PDict d =>
      match assoc k d with
      | Some x => Ok x
      | None => Raise (KeyError k)
      end
  | PStr _ => Raise (TypeError "string indices must be integers, not 'str'")
  | PList _ => Raise (TypeError "list indices must be integers or slices, not str")
  | _ => Raise (TypeError ("'" ++ type_name v ++ "' object is not subscriptable"))
  end.

(** [v.get(k, default)] *)
Definition get (v : pyval) (k : string) (default : pyval) : result pyval :=
  match v with
  | PDict d =>
      match assoc k d with
      | Some x => Ok x
      | None => Ok default
      end
  | _ => Raise (AttributeError ("'" ++ type_name v ++ "' object has no attribute 'get'"))
  end.

(** The number a value stands for in arithmetic and ordering; [bool] is a
    subclass of [int]. *)
Definition as_num (v : pyval) : option num :=
  match v with
  | PNum n => Some n
  | PBool true => Some (NInt 1)
  | PBool false => Some (NInt 0)
  | _ => None
  end.

(** The real number it stands for, when it is a finite one. *)
Definition as_number (v : pyval) : option Q :=
  match as_num v with
  | Some n =>
      match value n with
      | FFin q => Some q
      | _ => None
      end
  | None => None
  end.

(** The double quote, for interpreter messages that carry one. *)
Definition dquote : string := String (ascii_of_nat 34) EmptyString.

(** [v - n] and [v + n] for an int literal [n]: exact on an int, rounded on
    a float. *)
Definition sub (v : pyval) (n : Z) : result num :=
  match as_num v with
  | Some (NInt z) => Ok (NInt (z - n))
  | Some (NFloat f) => Ok (NFloat (fsub f (FFin (inject_Z n))))
  | None => Raise (TypeError ("unsupported operand type(s) for -: '" ++ type_name v ++ "' and 'int'"))
  end.

Definition add (v : pyval) (n : Z) : result num :=
  match as_num v with
  | Some (NInt z) => Ok (NInt (z + n))
  | Some (NFloat f) => Ok (NFloat (fadd f (FFin (inject_Z n))))
  | None =>
      match v with
      | PStr _ | PList _ =>
          Raise (TypeError ("can only concatenate " ++ type_name v ++ " (not " ++ dquote
                            ++ "int" ++ dquote ++ ") to " ++ type_name v))
      | _ =>
          Raise (TypeError ("unsupported operand type(s) for +: '" ++ type_name v ++ "' and 'int'"))
      end
  end.

(** [v > n] and [v < n] for an int literal [n]. *)
Definition gt (v : pyval) (n : Q) : result bool :=
  match as_num v with
  | Some x => Ok (fgt (value x) n)
  | None => Raise (TypeError ("'>' not supported between instances of '" ++ type_name v ++ "' and 'int'"))
  end.

Definition lt (v : pyval) (n : Q) : result bool :=
  match as_num v with
  | Some x => Ok (flt (value x) n)
  | None => Raise (TypeError ("'<' not supported between instances of '" ++ type_name v ++ "' and 'int'"))
  end.

(** [max(a, b)] keeps the int literal [a] unless [b] is strictly greater;
    [min(a, b)] keeps [a] unless [b] is strictly smaller. *)
Definition max (a : Z) (b : num) : num :=
  if fgt (value b) (inject_Z a) then b else NInt a.
Definition min (a : Z) (b : num) : num :=
  if flt (value b) (inject_Z a) then b else NInt a.

(** [sep.join(lines)] *)
Fixpoint join (sep : string) (lines : list string) : string :=
  match lines with
  | [] => ""
  | [l] => l
  | l :: rest => l ++ sep ++ join sep rest
  end.

(** [xs.append(x)], as a new list. *)
Definition append {A} (xs : list A) (x : A) : list A := app xs [x].

(** [chr(10)] *)
Definition chr10 : string := String (ascii_of_nat 10) EmptyString.

End Py.
Import Py.

Notation "x <- c ;; k" := (rbind c (fun x => k))
  (at level 61, c at next level, right associativity).

(** ** The process: configuration, provider, cache *)

(** The argument of [get_weather_data]: the tuple [(lat, lon)] or the value
    of [manual_location]. *)
Inductive location : Type :=
| Coords (lat lon : option float)
| Named (name : option string).

(** The two request URLs of the adapter, kept structured: the query part and
    the [appid] that is interpolated from [API_KEY]. *)
Inductive url : Type :=
| ByCoords (lat lon : option float) (appid : option string)
| ByName (q : option string) (appid : option string).

(** What one outbound GET can do: [requests.get] raises, [response.json()]
    raises, or a JSON document comes back. *)
Inductive reply : Type :=
| NetworkFailure (msg : string)
| NotJSON (msg : string)
| Json (data : pyval).

(** [API_KEY = os.environ.get("API_KEY")] and the provider, which may answer
    differently on each call (the index is the number of earlier calls). *)
Record env : Type := {
  API_KEY : option string;
  provider : nat -> url -> reply
}.

Record snapshot : Type := {
  temperature : pyval;
  rainfall : pyval;
  humidity : pyval;
  wind_speed : pyval;
  soil_temp : pyval;
  soil_moisture : pyval
}.

(** The two shapes of weather dict the module builds:
    [{'status': 'ok', ...six fields...}] and
    [{'status': 'error', 'message': ...}]. *)
Inductive weather_dict : Type :=
| WeatherOk (s : snapshot)
| WeatherError (message : string).

(** [weather.get('status')] *)
Definition status (w : weather_dict) : string :=
  match w with
  | WeatherOk _ => "ok"
  | WeatherError _ => "error"
  end.

(** [weather.get('message', default)] *)
Definition get_message (w : weather_dict) (default : string) : string :=
  match w with
  | WeatherOk _ => default
  | WeatherError m => m
  end.

(** [weather[key]] *)
Definition weather_item (w : weather_dict) (key : string) : result pyval :=
  match w with
  | WeatherOk s =>
      if String.eqb key "status" then Ok (PStr "ok")
      else if String.eqb key "temperature" then Ok (temperature s)
      else if String.eqb key "rainfall" then Ok (rainfall s)
      else if String.eqb key "humidity" then Ok (humidity s)
      else if String.eqb key "wind_speed" then Ok (wind_speed s)
      else if String.eqb key "soil_temp" then Ok (soil_temp s)
      else if String.eqb key "soil_moisture" then Ok (soil_moisture s)
      else Raise (KeyError key)
  | WeatherError m =>
      if String.eqb key "status" then Ok (PStr "error")
      else if String.eqb key "message" then Ok (PStr m)
      else Raise (KeyError key)
  end.

(** Mutable process state: the [lru_cache] of [get_weather_data], most
    recently used entry first, and the log of outbound GETs. *)
Record world : Type := {
  cache : list (location * weather_dict);
  calls : list url
}.

Definition initial_world : world := {| cache := []; calls := [] |}.

(** Computations that may raise and that read and write the process state;
    the state survives a raise. *)
Definition M (A : Type) : Type := world -> result A * world.

Definition mret {A} (a : A) : M A := fun w => (Ok a, w).
Definition mraise {A} (e : exn) : M A := fun w => (Raise e, w).
Definition lift {A} (r : result A) : M A := fun w => (r, w).

Definition mbind {A B} (c : M A) (k : A -> M B) : M B := fun w =>
  match c w with
  | (Ok a, w') => k a w'
  | (Raise e, w') => (Raise e, w')
  end.

(** [try: body  except Exception as e: handler(e)] for stateful bodies. *)
Definition mtry {A} (body : M A) (handler : exn -> M A) : M A := fun w =>
  match body w with
  | (Ok a, w') => (Ok a, w')
  | (Raise e, w') => if is_Exception e then handler e w' else (Raise e, w')
  end.

Notation "x <~ c ;; k" := (mbind c (fun x => k))
  (at level 61, c at next level, right associativity).

(** [requests.get(url)] followed by [response.json()]: one logged call. *)
Definition requests_get_json (e : env) (u : url) : M pyval := fun w =>
  let w' := {| cache := cache w; calls := append (calls w) u |} in
  match provider e (length (calls w)) u with
  | NetworkFailure m => (Raise (RequestException m), w')
  | NotJSON m => (Raise (JSONDecodeError m), w')
  | Json data => (Ok data, w')
  end.

(** ** Weather adapter *)

(** The dict display of lines 43-51, evaluated entry by entry. *)
Definition normalize (data : pyval) : result weather_dict :=
  main <- getitem data "main" ;;
  temp <- getitem main "temp" ;;
  rain <- get data "rain" (PDict []) ;;
  rain1h <- get rain "1h" (PNum 0) ;;
  main <- getitem data "main" ;;
  hum <- getitem main "humidity" ;;
  wind <- getitem data "wind" ;;
  speed <- getitem wind "speed" ;;
  main <- getitem data "main" ;;
  temp' <- getitem main "temp" ;;
  t2 <- sub temp' 2 ;;
  main <- getitem data "main" ;;
  hum' <- getitem main "humidity" ;;
  h10 <- add hum' 10 ;;
  Ok (WeatherOk {| temperature := temp;
                   rainfall := rain1h;
                   humidity := hum;
                   wind_speed := speed;
                   soil_temp := PNum (Py.max 10 t2);
                   soil_moisture := PNum (Py.min 100 h10) |}).

(** The function under the decorator (Python's [__wrapped__]). *)
Definition get_weather_data_wrapped (e : env) (loc : location) : M weather_dict :=
  mtry
    (let u := match loc with
              | Coords lat lon => ByCoords lat lon (API_KEY e)
              | Named name => ByName name (API_KEY e)
              end in
     data <~ requests_get_json e u ;;
     lift (normalize data))
    (fun ex => mret (WeatherError (str_exn ex))).

(** Keys of the cache compare as Python values: floats by [==], so that a
    key holding NaN equals no key, not even an earlier copy of itself (each
    request parses its coordinates into fresh objects). *)
Definition opt_eqb {A} (eqb : A -> A -> bool) (x y : option A) : bool :=
  match x, y with
  | Some a, Some b => eqb a b
  | None, None => true
  | _, _ => false
  end.

Definition location_eqb (a b : location) : bool :=
  match a, b with
  | Coords la lo, Coords la' lo' => opt_eqb feq la la' && opt_eqb feq lo lo'
  | Named n, Named n' => opt_eqb String.eqb n n'
  | _, _ => false
  end.

Definition maxsize : nat := 100.

Fixpoint cache_find (k : location) (c : list (location * weather_dict)) : option weather_dict :=
  match c with
  | [] => None
  | (k', v) :: rest => if location_eqb k' k then Some v else cache_find k rest
  end.

Definition cache_remove (k : location) (c : list (location * weather_dict)) :=
  filter (fun kv => negb (location_eqb (fst kv) k)) c.

(** [@lru_cache(maxsize=100)]: a hit is served without running the function
    and becomes the most recent entry; a miss runs it and stores what it
    returned, dropping the least recent entry beyond [maxsize]; a raise is
    not stored. *)
Definition get_weather_data (e : env) (loc : location) : M weather_dict := fun w =>
  match cache_find loc (cache w) with
  | Some v =>
      (Ok v, {| cache := (loc, v) :: cache_remove loc (cache w); calls := calls w |})
  | None =>
      match get_weather_data_wrapped e loc w with
      | (Ok v, w') =>
          (Ok v, {| cache := firstn maxsize ((loc, v) :: cache w'); calls := calls w' |})
      | (Raise ex, w') => (Raise ex, w')
      end
  end.

(** ** Reference table *)

Record row : Type := {
  Soil_type : string;
  Crop_type : string;
  Avail_N : Z;
  Avail_P : Z;
  Exch_K : Z
}.

Definition SAMPLE_DATA : list row := [
  {| Soil_type := "Red";   Crop_type := "Rice";      Avail_N := 250; Avail_P := 8;  Exch_K := 100 |};
  {| Soil_type := "Black"; Crop_type := "Cotton";    Avail_N := 300; Avail_P := 12; Exch_K := 120 |};
  {| Soil_type := "Sandy"; Crop_type := "Maize";     Avail_N := 200; Avail_P := 6;  Exch_K := 80 |};
  {| Soil_type := "Clay";  Crop_type := "Wheat";     Avail_N := 220; Avail_P := 9;  Exch_K := 90 |};
  {| Soil_type := "Loamy"; Crop_type := "Sugarcane"; Avail_N := 280; Avail_P := 11; Exch_K := 110 |}
].

(** [df[(df['Soil_type'] == soil_type) & (df['Crop_type'] == crop_type)]] *)
Definition select (df : list row) (soil_type crop_type : string) : list row :=
  filter (fun r => String.eqb (Soil_type r) soil_type && String.eqb (Crop_type r) crop_type) df.

(** [df.empty] and [df.iloc[0]] *)
Definition empty (df : list row) : bool :=
  match df with [] => true | _ => false end.

Definition iloc0 (df : list row) : result row :=
  match df with
  | r :: _ => Ok r
  | [] => Raise (IndexError "single positional indexer is out-of-bounds")
  end.

(** ** Recommendation engine *)

Record recommendation : Type := {
  fertilizers : list string;
  land_size_m2 : float;
  fallow_years : Z;
  weather : weather_dict
}.

(** What [fertilizer_recommendation] returns: [{'error': ...}] or the
    four-key recommendation dict. *)
Inductive engine_dict : Type :=
| ErrorDict (error : string)
| Recommendation (r : recommendation).

(** Truth values of the optional query parameters and of [API_KEY]. *)
Definition truthy_float (x : option float) : bool :=
  match x with
  | Some (FFin q) => negb (Qeq_bool q 0)
  | Some _ => true
  | None => false
  end.

Definition truthy_str (x : option string) : bool :=
  match x with
  | Some s => negb (String.eqb s "")
  | None => false
  end.

Definition default_weather : weather_dict :=
  WeatherOk {| temperature := PNum 25;
               rainfall := PNum 0;
               humidity := PNum 60;
               wind_speed := PNum 2;
               soil_temp := PNum 23;
               soil_moisture := PNum 50 |}.

Definition fertilizer_recommendation (e : env)
    (soil_type crop_type : string) (land_size : float) (fallow_years : Z)
    (use_my_location : bool) (lat lon : option float) (manual_location : option string)
  : M engine_dict :=
  let filtered := select SAMPLE_DATA soil_type crop_type in
  if empty filtered then
    mret (ErrorDict "No data for this soil-crop combination.")
  else
    weather <~
      (if (use_my_location && truthy_float lat && truthy_float lon && truthy_str (API_KEY e))
          || (truthy_str manual_location && truthy_str (API_KEY e))
       then
         if use_my_location && truthy_float lat && truthy_float lon
         then get_weather_data e (Coords lat lon)
         else get_weather_data e (Named manual_location)
       else mret default_weather) ;;
    if negb (String.eqb (status weather) "ok") then
      mret (ErrorDict (get_message weather "Weather data unavailable"))
    else
      row <~ lift (iloc0 filtered) ;;
      let fertilizers0 : list string := [] in
      let fertilizers1 :=
        if Avail_N row <? 280 then append fertilizers0 "Urea" else fertilizers0 in
      let fertilizers2 :=
        if Avail_P row <? 10 then append fertilizers1 "Single Super Phosphate" else fertilizers1 in
      let fertilizers3 :=
        if Exch_K row <? 110 then append fertilizers2 "Muriate of Potash" else fertilizers2 in
      mret (Recommendation {| fertilizers := fertilizers3;
                              land_size_m2 := land_size;
                              fallow_years := fallow_years;
                              weather := weather |}).

(** ** Message renderer and route handler *)

Section Rendering.

(** [str(x)] on a number, as an f-string interpolates it. *)
Variable str_num : pyval -> string.

(** [x in xs] on a list of strings. *)
Definition contains (x : string) (xs : list string) : bool :=
  existsb (String.eqb x) xs.

(** Lines 62-68. *)
Definition rain_advice (weather : weather_dict) (weather_advice : list string)
  : result (list string) :=
  r <- weather_item weather "rainfall" ;;
  heavy <- gt r 10 ;;
  if heavy then
    Ok (append weather_advice "🚨 **Heavy rain warning!** Avoid all field work today.")
  else
    r <- weather_item weather "rainfall" ;;
    some <- gt r 5 ;;
    if some then
      Ok (append weather_advice "🌧️ **Rain expected.** Delay fertilizer application.")
    else
      Ok (append weather_advice "☀️ **Dry conditions.** Water crops if needed.").

(** Lines 70-73. *)
Definition wind_advice (weather : weather_dict) (weather_advice : list string)
  : result (list string) :=
  v <- weather_item weather "wind_speed" ;;
  strong <- gt v 8 ;;
  if strong then
    Ok (append weather_advice "💨 **Strong winds!** No spraying today.")
  else
    v <- weather_item weather "wind_speed" ;;
    breezy <- gt v 5 ;;
    if breezy then
      Ok (append weather_advice "🌬️ **Breezy conditions.** Spray carefully.")
    else
      Ok weather_advice.

(** Lines 76-85. *)
Definition soil_advice_of (weather : weather_dict) : result (list string) :=
  let soil_advice : list string := [] in
  t <- weather_item weather "soil_temp" ;;
  cold <- lt t 15 ;;
  soil_advice <-
    (if cold then
       Ok (append soil_advice "❄️ **Cold soil.** Delay planting warm-season crops.")
     else
       t <- weather_item weather "soil_temp" ;;
       hot <- gt t 30 ;;
       if hot then
         Ok (append soil_advice "🔥 **Hot soil.** Water deeply in early morning.")
       else Ok soil_advice) ;;
  m <- weather_item weather "soil_moisture" ;;
  wet <- gt m 85 ;;
  if wet then
    Ok (append soil_advice "💧 **Waterlogged soil.** Improve drainage.")
  else
    m <- weather_item weather "soil_moisture" ;;
    dry <- lt m 40 ;;
    if dry then
      Ok (append soil_advice "🏜️ **Dry soil.** Irrigate soon.")
    else Ok soil_advice.

(** Lines 88-94. *)
Definition fert_advice_of (fertilizers : list string) : list string :=
  let fert_advice : list string := [] in
  let fert_advice :=
    if contains "Urea" fertilizers
    then append fert_advice "🔵 **Apply Urea** (140kg/acre for nitrogen)" else fert_advice in
  let fert_advice :=
    if contains "Single Super Phosphate" fertilizers
    then append fert_advice "🟢 **Apply SSP** (50kg/acre for phosphorus)" else fert_advice in
  let fert_advice :=
    if contains "Muriate of Potash" fertilizers
    then append fert_advice "🟣 **Apply MOP** (40kg/acre for potassium)" else fert_advice in
  fert_advice.

(** Lines 97-99. *)
Definition fallow_msg_of (fallow_years : Z) : string :=
  if fallow_years >=? 2
  then "⚠️ **Long fallow period!** Plant green manure crops."
  else "".

(** The f-string of lines 102-120, its interpolations already evaluated. *)
Definition compile_message (land_size fallow_years soil_temp soil_moisture : string)
    (weather_advice soil_advice fert_advice : list string) (fallow_msg : string) : string :=
  chr10 ++
  "    🌱 **FARMER ADVISORY** 🌱" ++ chr10 ++
  "    ========================" ++ chr10 ++
  "    **FIELD CONDITIONS:**" ++ chr10 ++
  "    - Land: " ++ land_size ++ "m² | Fallow: " ++ fallow_years ++ " year(s)" ++ chr10 ++
  "    - Soil Temp: " ++ soil_temp ++ "°C | Moisture: " ++ soil_moisture ++ "%" ++ chr10 ++
  "    " ++ chr10 ++
  "    **WEATHER ALERTS:**" ++ chr10 ++
  "    " ++ join chr10 weather_advice ++ chr10 ++
  "    " ++ chr10 ++
  "    **SOIL CARE:**" ++ chr10 ++
  "    " ++ (match soil_advice with
             | [] => "✅ Soil conditions normal"
             | _ => join chr10 soil_advice
             end) ++ chr10 ++
  "    " ++ chr10 ++
  "    **FERTILIZER PLAN:**" ++ chr10 ++
  "    " ++ (match fert_advice with
             | [] => "✅ No fertilizers needed now"
             | _ => join chr10 fert_advice
             end) ++ chr10 ++
  "    " ++ chr10 ++
  "    **SPECIAL NOTES:**" ++ chr10 ++
  "    " ++ (if String.eqb fallow_msg "" then "No critical issues detected" else fallow_msg)
         ++ chr10 ++
  "    ".

Definition generate_farmer_message (recommendation : recommendation) : result string :=
  let weather := weather recommendation in
  let fertilizers := fertilizers recommendation in
  let land_size := land_size_m2 recommendation in
  let fallow_years := fallow_years recommendation in
  weather_advice <- rain_advice weather [] ;;
  weather_advice <- wind_advice weather weather_advice ;;
  soil_advice <- soil_advice_of weather ;;
  let fert_advice := fert_advice_of fertilizers in
  let fallow_msg := fallow_msg_of fallow_years in
  st <- weather_item weather "soil_temp" ;;
  sm <- weather_item weather "soil_moisture" ;;
  Ok (compile_message (str_num (PNum land_size)) (str_of_int fallow_years)
        (str_num st) (str_num sm)
        weather_advice soil_advice fert_advice fallow_msg).

(** The JSON object the route returns: the recommendation with
    ['farmer_message'] added. *)
Record advisory : Type := {
  body : recommendation;
  farmer_message : string
}.

Definition get_recommendation (e : env)
    (soil_type crop_type : string) (land_size : float) (fallow_years : Z)
    (use_my_location : bool) (lat lon : option float) (manual_location : option string)
  : M advisory :=
  mtry
    (recommendation <~
       fertilizer_recommendation e soil_type crop_type land_size fallow_years
         use_my_location lat lon manual_location ;;
     match recommendation with
     | ErrorDict error => mraise (HTTPException 400 error)
     | Recommendation r =>
         farmer_message <~ lift (generate_farmer_message r) ;;
         mret {| body := r; farmer_message := farmer_message |}
     end)
    (fun ex => mraise (HTTPException 500 (str_exn ex))).

(** What the framework sends for the outcome of a route handler. *)
Inductive http_body : Type :=
| JsonAdvisory (a : advisory)
| JsonDetail (detail : string)
| ValidationErrors
| InternalServerError.

Record http_response : Type := {
  status_code : Z;
  content : http_body
}.

(** What [json.dumps(..., allow_nan=False)] of the JSON response accepts: a
    value with no NaN and no infinity anywhere in it. *)
Fixpoint json_compliant (v : pyval) : bool :=
  match v with
  | PNum (NFloat f) => is_finite f
  | PList items => forallb json_compliant items
  | PDict entries =>
      (fix all (d : list (string * pyval)) : bool :=
         match d with
         | [] => true
         | (_, x) :: rest => json_compliant x && all rest
         end) entries
  | _ => true
  end.

Definition weather_compliant (w : weather_dict) : bool :=
  match w with
  | WeatherOk s =>
      json_compliant (temperature s) && json_compliant (rainfall s) &&
      json_compliant (humidity s) && json_compliant (wind_speed s) &&
      json_compliant (soil_temp s) && json_compliant (soil_moisture s)
  | WeatherError _ => true
  end.

Definition advisory_compliant (a : advisory) : bool :=
  is_finite (land_size_m2 (body a)) && weather_compliant (weather (body a)).

(** FastAPI: a returned value is serialised after the handler has returned,
    so a value that cannot be serialised is not seen by the handler's
    [except] and ends as the server's plain 500; otherwise it is a 200
    response.  A raised [HTTPException] becomes its status code with
    [{"detail": detail}], anything else is the server's plain 500. *)
Definition respond (outcome : result advisory) : http_response :=
  match outcome with
  | Ok a =>
      if advisory_compliant a
      then {| status_code := 200; content := JsonAdvisory a |}
      else {| status_code := 500; content := InternalServerError |}
  | Raise (HTTPException code detail) => {| status_code := code; content := JsonDetail detail |}
  | Raise _ => {| status_code := 500; content := InternalServerError |}
  end.

(** The route once its query parameters have been validated: the handler
    runs and the framework answers for it. *)
Definition api_recommend (e : env)
    (soil_type crop_type : string) (land_size : float) (fallow_years : Z)
    (use_my_location : bool) (lat lon : option float) (manual_location : option string)
    (w : world) : http_response * world :=
  let (outcome, w') :=
    get_recommendation e soil_type crop_type land_size fallow_years
      use_my_location lat lon manual_location w in
  (respond outcome, w').

(** A query parameter as the framework finds it: not in the query string, in
    it but not a value of the declared type, or parsed to one. *)
Inductive param (A : Type) : Type :=
| Absent
| Unparsable
| Parsed (a : A).
#[global] Arguments Absent {A}.
#[global] Arguments Unparsable {A}.
#[global] Arguments Parsed {A} a.

Record query : Type := {
  q_soil_type : param string;
  q_crop_type : param string;
  q_land_size : param float;
  q_fallow_years : param Z;
  q_use_my_location : param bool;
  q_lat : param float;
  q_lon : param float;
  q_manual_location : param string
}.

(** [Query(...)]: the parameter must be there.  [Query(default)]: the
    default stands in for a missing one.  A value of the wrong type is
    refused either way. *)
Definition required {A} (p : param A) : option A :=
  match p with
  | Parsed a => Some a
  | _ => None
  end.

Definition defaulted {A} (default : A) (p : param A) : option A :=
  match p with
  | Parsed a => Some a
  | Absent => Some default
  | Unparsable => None
  end.

Definition defaulted_none {A} (p : param A) : option (option A) :=
  match p with
  | Parsed a => Some (Some a)
  | Absent => Some None
  | Unparsable => None
  end.

(** The arguments the handler is called with. *)
Record request : Type := {
  r_soil_type : string;
  r_crop_type : string;
  r_land_size : float;
  r_fallow_years : Z;
  r_use_my_location : bool;
  r_lat : option float;
  r_lon : option float;
  r_manual_location : option string
}.

(** The declarations of lines 178-185, checked before the handler runs. *)
Definition validate (q : query) : option request :=
  match required (q_soil_type q), required (q_crop_type q),
        required (q_land_size q), required (q_fallow_years q),
        defaulted false (q_use_my_location q),
        defaulted_none (q_lat q), defaulted_none (q_lon q),
        defaulted_none (q_manual_location q) with
  | Some soil_type, Some crop_type, Some land_size, Some fallow_years,
    Some use_my_location, Some lat, Some lon, Some manual_location =>
      Some {| r_soil_type := soil_type; r_crop_type := crop_type;
              r_land_size := land_size; r_fallow_years := fallow_years;
              r_use_my_location := use_my_location;
              r_lat := lat; r_lon := lon; r_manual_location := manual_location |}
  | _, _, _, _, _, _, _, _ => None
  end.

(** [GET /api/recommend]: a query that fails validation is answered 422
    without the handler being called. *)
Definition route (e : env) (q : query) (w : world) : http_response * world :=
  match validate q with
  | Some r =>
      api_recommend e (r_soil_type r) (r_crop_type r) (r_land_size r) (r_fallow_years r)
        (r_use_my_location r) (r_lat r) (r_lon r) (r_manual_location r) w
  | None => ({| status_code := 422; content := ValidationErrors |}, w)
  end.

End Rendering.

(** ** Vocabulary of the statements *)

(** The request URL of lines 35-38. *)
Definition url_of (e : env) (loc : location) : url :=
  match loc with
  | Coords lat lon => ByCoords lat lon (API_KEY e)
  | Named name => ByName name (API_KEY e)
  end.

(** Which argument, if any, lines 135-139 pass to the adapter. *)
Definition weather_source (e : env) (use_my_location : bool) (lat lon : option float)
    (manual_location : option string) : option location :=
  if (use_my_location && truthy_float lat && truthy_float lon && truthy_str (API_KEY e))
     || (truthy_str manual_location && truthy_str (API_KEY e))
  then Some (if use_my_location && truthy_float lat && truthy_float lon
             then Coords lat lon
             else Named manual_location)
  else None.

(** Lines 135-149 as one step: the snapshot the engine goes on with. *)
Definition resolve_weather (e : env) (use_my_location : bool) (lat lon : option float)
    (manual_location : option string) : M weather_dict :=
  match weather_source e use_my_location lat lon manual_location with
  | Some loc => get_weather_data e loc
  | None => mret default_weather
  end.

(** The fertilizer list the thresholds select, in the fixed order. *)
Definition needed (r : row) : list string :=
  ((if Avail_N r <? 280 then ["Urea"] else []) ++
   (if Avail_P r <? 10 then ["Single Super Phosphate"] else []) ++
   (if Exch_K r <? 110 then ["Muriate of Potash"] else []))%list.

Definition matches (soil_type crop_type : string) (r : row) : Prop :=
  Soil_type r = soil_type /\ Crop_type r = crop_type.

(** A query parameter that is missing, or a coordinate equal to zero. *)
Definition absent_or_zero (x : option float) : Prop :=
  match x with
  | None => True
  | Some (FFin q) => (q == 0)%Q
  | Some _ => False
  end.

(** A coordinate that is not zero (NaN and the infinities are not). *)
Definition nonzero (x : float) : Prop :=
  match x with
  | FFin q => ~ (q == 0)%Q
  | _ => True
  end.

Definition absent_or_blank (x : option string) : Prop :=
  x = None \/ x = Some "".

(** A computation whose only possible raise is caught by [except Exception]. *)
Definition catchable {A} (r : result A) : Prop :=
  match r with
  | Ok _ => True
  | Raise ex => is_Exception ex = true
  end.

(** The provider's hourly rainfall reading, when the payload carries one. *)
Definition hourly_rain (data : pyval) : option pyval :=
  match data with
  | PDict d =>
      match assoc "rain" d with
      | Some (PDict r) => assoc "1h" r
      | _ => None
      end
  | _ => None
  end.

(** The three rainfall lines and the choice among them in the words of the
    rule table: above 10, else above 5, else dry. *)
Definition heavy_rain_line : string :=
  "🚨 **Heavy rain warning!** Avoid all field work today.".
Definition delay_line : string :=
  "🌧️ **Rain expected.** Delay fertilizer application.".
Definition dry_line : string :=
  "☀️ **Dry conditions.** Water crops if needed.".

Definition rain_line (r : Q) : string :=
  if Qlt_le_dec 10 r then heavy_rain_line
  else if Qlt_le_dec 5 r then delay_line
  else dry_line.

Definition is_rain_line (l : string) : bool :=
  String.eqb l heavy_rain_line || String.eqb l delay_line || String.eqb l dry_line.

(** Sample inputs: a provider payload in the provider's schema, and three
    processes (no credential; a credential with a well-formed provider; a
    credential with a provider that does not answer in JSON). *)
Definition sample_payload (temp hum : num) : pyval :=
  PDict [("main", PDict [("temp", PNum temp); ("humidity", PNum hum)]);
         ("wind", PDict [("speed", PNum 3)])].

Definition offline : env :=
  {| API_KEY := None; provider := fun _ _ => NetworkFailure "unreachable" |}.

Definition online (p : nat -> url -> reply) : env :=
  {| API_KEY := Some "k"; provider := p |}.

Definition fair_weather : nat -> url -> reply :=
  fun _ _ => Json (sample_payload 30 50).

Definition garbled : nat -> url -> reply :=
  fun _ _ => NotJSON "Expecting value: line 1 column 1 (char 0)".

Definition plain_str : pyval -> string := fun _ => "0".

(** A complete query for Red soil and Rice near a named place. *)
Definition delhi_query : query :=
  {| q_soil_type := Parsed "Red"; q_crop_type := Parsed "Rice";
     q_land_size := Parsed (FFin 100); q_fallow_years := Parsed 1;
     q_use_my_location := Absent; q_lat := Absent; q_lon := Absent;
     q_manual_location := Parsed "Delhi" |}.

(** A rainy, windy day, and a recommendation that embeds it. *)
Definition rainy : snapshot :=
  {| temperature := PNum 25; rainfall := PNum 12; humidity := PNum 60;
     wind_speed := PNum 9; soil_temp := PNum 23; soil_moisture := PNum 50 |}.

Definition rainy_day : recommendation :=
  {| fertilizers := ["Urea"]; land_size_m2 := FFin 100; fallow_years := 2;
     weather := WeatherOk rainy |}.

(** The remaining advisory lines and, per reading, the lines the rule table
    of the renderer selects. *)
Definition strong_wind_line : string := "💨 **Strong winds!** No spraying today.".
Definition breezy_line : string := "🌬️ **Breezy conditions.** Spray carefully.".
Definition cold_soil_line : string := "❄️ **Cold soil.** Delay planting warm-season crops.".
Definition hot_soil_line : string := "🔥 **Hot soil.** Water deeply in early morning.".
Definition waterlogged_line : string := "💧 **Waterlogged soil.** Improve drainage.".
Definition dry_soil_line : string := "🏜️ **Dry soil.** Irrigate soon.".
Definition urea_line : string := "🔵 **Apply Urea** (140kg/acre for nitrogen)".
Definition ssp_line : string := "🟢 **Apply SSP** (50kg/acre for phosphorus)".
Definition mop_line : string := "🟣 **Apply MOP** (40kg/acre for potassium)".

Definition wind_lines (v : Q) : list string :=
  if Qlt_le_dec 8 v then [strong_wind_line]
  else if Qlt_le_dec 5 v then [breezy_line]
  else [].

Definition soil_temp_lines (t : Q) : list string :=
  if Qlt_le_dec t 15 then [cold_soil_line]
  else if Qlt_le_dec 30 t then [hot_soil_line]
  else [].

Definition soil_moisture_lines (m : Q) : list string :=
  if Qlt_le_dec 85 m then [waterlogged_line]
  else if Qlt_le_dec m 40 then [dry_soil_line]
  else [].

(** The same choices for any number, the non-finite ones included: an
    infinity compares like a number beyond every threshold, and NaN is
    neither above nor below any threshold. *)
Definition rain_line_of (x : float) : string :=
  match x with
  | FFin r => rain_line r
  | FInf false => heavy_rain_line
  | _ => dry_line
  end.

Definition wind_lines_of (x : float) : list string :=
  match x with
  | FFin v => wind_lines v
  | FInf false => [strong_wind_line]
  | _ => []
  end.

Definition soil_temp_lines_of (x : float) : list string :=
  match x with
  | FFin t => soil_temp_lines t
  | FInf true => [cold_soil_line]
  | FInf false => [hot_soil_line]
  | FNaN => []
  end.

Definition soil_moisture_lines_of (x : float) : list string :=
  match x with
  | FFin m => soil_moisture_lines m
  | FInf false => [waterlogged_line]
  | FInf true => [dry_soil_line]
  | FNaN => []
  end.

(** Reading the rendered text back: [s.split(chr(10))], [l.lstrip(' ')],
    and the test that a line of the text is one of the rainfall lines. *)
Definition is_newline (c : ascii) : bool := Ascii.eqb c (ascii_of_nat 10).

Fixpoint lines (s : string) : list string :=
  match s with
  | EmptyString => [EmptyString]
  | String c rest =>
      if is_newline c then EmptyString :: lines rest
      else match lines rest with
           | l :: ls => String c l :: ls
           | [] => [String c EmptyString]
           end
  end.

Fixpoint lstrip (s : string) : string :=
  match s with
  | String c rest => if Ascii.eqb c " " then lstrip rest else s
  | EmptyString => EmptyString
  end.

Definition is_rain_row (l : string) : bool := is_rain_line (lstrip l).

Fixpoint no_newline (s : string) : bool :=
  match s with
  | EmptyString => true
  | String c rest => negb (is_newline c) && no_newline rest
  end.

(** The first line of a section carries the indentation of the template;
    [join] adds none to the lines that follow it. *)
Definition indent_first (section : list string) : list string :=
  match section with
  | [] => ["    "]
  | l :: ls => ("    " ++ l) :: ls
  end.

(** The lines of the template of lines 102-120, in order. *)
Definition message_lines (land_size fallow_years soil_temp soil_moisture : string)
    (weather_advice soil_advice fert_advice : list string) (fallow_msg : string)
  : list string :=
  let land_row :=
    "    - Land: " ++ land_size ++ "m² | Fallow: " ++ fallow_years ++ " year(s)" in
  let soil_row :=
    "    - Soil Temp: " ++ soil_temp ++ "°C | Moisture: " ++ soil_moisture ++ "%" in
  let notes_row :=
    "    " ++ (if String.eqb fallow_msg "" then "No critical issues detected"
               else fallow_msg) in
  ([ "";
     "    🌱 **FARMER ADVISORY** 🌱";
     "    ========================";
     "    **FIELD CONDITIONS:**";
     land_row;
     soil_row;
     "    ";
     "    **WEATHER ALERTS:**" ]
   ++ indent_first weather_advice
   ++ [ "    "; "    **SOIL CARE:**" ]
   ++ indent_first (match soil_advice with
                    | [] => ["✅ Soil conditions normal"]
                    | _ => soil_advice
                    end)
   ++ [ "    "; "    **FERTILIZER PLAN:**" ]
   ++ indent_first (match fert_advice with
                    | [] => ["✅ No fertilizers needed now"]
                    | _ => fert_advice
                    end)
   ++ [ "    "; "    **SPECIAL NOTES:**"; notes_row; "    " ])%list.

(** The plan line that belongs to a fertilizer name of the engine. *)
Definition plan_line (fertilizer : string) : string :=
  if String.eqb fertilizer "Urea" then urea_line
  else if String.eqb fertilizer "Single Super Phosphate" then ssp_line
  else mop_line.

(** A key of the cache that holds a NaN coordinate. *)
Definition is_nan (x : option float) : bool :=
  match x with
  | Some FNaN => true
  | _ => false
  end.

Definition holds_nan (loc : location) : bool :=
  match loc with
  | Coords lat lon => is_nan lat || is_nan lon
  | Named _ => false
  end.

(** The cache respects the bound of the decorator. *)
Definition within_maxsize (w : world) : Prop :=
  (length (cache w) <= maxsize)%nat.

(** A provider whose wind reading is a string, and one that is down. *)
Definition odd_wind : nat -> url -> reply :=
  fun _ _ => Json (PDict [("main", PDict [("temp", PNum 30); ("humidity", PNum 50)]);
                          ("wind", PDict [("speed", PStr "calm")])]).

Definition down : nat -> url -> reply :=
  fun _ _ => NetworkFailure "unreachable".

(** ** Python runtime facts *)

Lemma Qgtb_true (x y : Q) : Qgtb x y = true <-> (y < x)%Q.
Proof.
  unfold Qgtb. rewrite (Qgt_alt x y). destruct (x ?= y)%Q; split; congruence.
Qed.

Lemma Qltb_true (x y : Q) : Qltb x y = true <-> (x < y)%Q.
Proof.
  unfold Qltb. rewrite (Qlt_alt x y). destruct (x ?= y)%Q; split; congruence.
Qed.

Lemma Qgtb_false (x y : Q) : Qgtb x y = false <-> (x <= y)%Q.
Proof.
  split; intro H.
  - apply Qnot_lt_le. intro L. apply Qgtb_true in L. congruence.
  - destruct (Qgtb x y) eqn:E; [|reflexivity].
    apply Qgtb_true in E. exfalso. exact (Qlt_not_le _ _ E H).
Qed.

Lemma max_value (a : Z) (b : num) (q : Q) :
  value b = FFin q -> value (Py.max a b) = FFin (Qmax (inject_Z a) q).
Proof.
  intro Hb. unfold Py.max, Qmax, GenericMinMax.gmax. rewrite Hb. cbn [fgt]. unfold Qgtb.
  rewrite <- (Qcompare_antisym (inject_Z a) q).
  destruct (inject_Z a ?= q)%Q; cbn; try reflexivity. exact Hb.
Qed.

Lemma min_value (a : Z) (b : num) (q : Q) :
  value b = FFin q -> value (Py.min a b) = FFin (Qmin (inject_Z a) q).
Proof.
  intro Hb. unfold Py.min, Qmin, GenericMinMax.gmin. rewrite Hb. cbn [flt]. unfold Qltb.
  rewrite <- (Qcompare_antisym (inject_Z a) q).
  destruct (inject_Z a ?= q)%Q; cbn; try reflexivity. exact Hb.
Qed.

(** ** The adapter returns *)

Lemma catchable_bind {A B} (r : result A) (k : A -> result B) :
  catchable r -> (forall a, catchable (k a)) -> catchable (rbind r k).
Proof.
  destruct r as [a|ex]; simpl; auto.
Qed.

Lemma catchable_getitem v k : catchable (getitem v k).
Proof.
  destruct v; simpl; auto. destruct (assoc k entries); simpl; auto.
Qed.

Lemma catchable_get v k d : catchable (get v k d).
Proof.
  destruct v; simpl; auto. destruct (assoc k entries); simpl; auto.
Qed.

Lemma catchable_sub v n : catchable (sub v n).
Proof.
  unfold sub. destruct (as_num v) as [[z|f]|]; simpl; auto.
Qed.

Lemma catchable_add v n : catchable (add v n).
Proof.
  unfold add. destruct (as_num v) as [[z|f]|]; simpl; auto.
  destruct v; simpl; auto.
Qed.

Create HintDb py.
#[local] Hint Resolve catchable_getitem catchable_get catchable_sub catchable_add : py.

Lemma catchable_normalize data : catchable (normalize data).
Proof.
  unfold normalize.
  repeat (apply catchable_bind; [auto with py | intro]).
  exact I.
Qed.

(** One run of the undecorated function: exactly one logged GET, and the
    dict that comes back is decided by the provider's reply. *)
Lemma get_weather_data_wrapped_run (e : env) (loc : location) (w : world) :
  get_weather_data_wrapped e loc w =
  (Ok match provider e (length (calls w)) (url_of e loc) with
      | NetworkFailure m => WeatherError m
      | NotJSON m => WeatherError m
      | Json data =>
          match normalize data with
          | Ok v => v
          | Raise ex => WeatherError (str_exn ex)
          end
      end,
   {| cache := cache w; calls := append (calls w) (url_of e loc) |}).
Proof.
  unfold get_weather_data_wrapped, mtry, mbind, requests_get_json, lift, mret.
  fold (url_of e loc).
  destruct (provider e (length (calls w)) (url_of e loc)) as [m|m|data]; simpl; try reflexivity.
  pose proof (catchable_normalize data) as C.
  destruct (normalize data) as [v|ex]; simpl in *; [reflexivity|].
  rewrite C. reflexivity.
Qed.

Lemma get_weather_data_returns (e : env) (loc : location) (w : world) :
  exists v w', get_weather_data e loc w = (Ok v, w') /\
    (calls w' = calls w \/ calls w' = append (calls w) (url_of e loc)).
Proof.
  unfold get_weather_data.
  destruct (cache_find loc (cache w)) as [v|].
  - eexists _, _. split; [reflexivity|]. left. reflexivity.
  - rewrite get_weather_data_wrapped_run.
    eexists _, _. split; [reflexivity|]. right. reflexivity.
Qed.

(** A miss costs exactly one outbound call, and its result is stored. *)
Lemma get_weather_data_miss (e : env) (loc : location) (w : world) :
  cache_find loc (cache w) = None ->
  exists v,
    get_weather_data e loc w =
    (Ok v, {| cache := firstn maxsize ((loc, v) :: cache w);
              calls := append (calls w) (url_of e loc) |}).
Proof.
  intro Hmiss. unfold get_weather_data. rewrite Hmiss.
  rewrite get_weather_data_wrapped_run. eexists. reflexivity.
Qed.

(** A hit costs none. *)
Lemma get_weather_data_hit (e : env) (loc : location) (w : world) (v : weather_dict) :
  cache_find loc (cache w) = Some v ->
  get_weather_data e loc w =
  (Ok v, {| cache := (loc, v) :: cache_remove loc (cache w); calls := calls w |}).
Proof.
  intro Hhit. unfold get_weather_data. rewrite Hhit. reflexivity.
Qed.

(** ** The engine, step by step *)

Lemma fertilizer_recommendation_unfold (e : env) soil_type crop_type land_size fallow
    use_my_location lat lon manual_location (w : world) :
  fertilizer_recommendation e soil_type crop_type land_size fallow
    use_my_location lat lon manual_location w =
  match select SAMPLE_DATA soil_type crop_type with
  | [] => (Ok (ErrorDict "No data for this soil-crop combination."), w)
  | row :: _ =>
      match resolve_weather e use_my_location lat lon manual_location w with
      | (Ok (WeatherOk s), w') =>
          (Ok (Recommendation {| fertilizers := needed row;
                                 land_size_m2 := land_size;
                                 fallow_years := fallow;
                                 weather := WeatherOk s |}), w')
      | (Ok (WeatherError m), w') => (Ok (ErrorDict m), w')
      | (Raise ex, w') => (Raise ex, w')
      end
  end.
Proof.
  unfold fertilizer_recommendation, resolve_weather, weather_source.
  destruct (select SAMPLE_DATA soil_type crop_type) as [|row rest]; [reflexivity|].
  cbn [empty]. unfold mbind.
  match goal with
  | |- context [if ?c then (if ?d then _ else _) else mret default_weather] =>
      destruct c; [destruct d|]
  end.
  1: destruct (get_weather_data e (Coords lat lon) w) as [[[s|m]|ex] w'].
  4: destruct (get_weather_data e (Named manual_location) w) as [[[s|m]|ex] w'].
  all: try reflexivity.
  all: unfold needed, append, lift, mret; cbn;
       destruct (Avail_N row <? 280), (Avail_P row <? 10), (Exch_K row <? 110); reflexivity.
Qed.

Lemma resolve_weather_returns (e : env) use_my_location lat lon manual_location (w : world) :
  exists v w', resolve_weather e use_my_location lat lon manual_location w = (Ok v, w').
Proof.
  unfold resolve_weather.
  destruct (weather_source e use_my_location lat lon manual_location) as [loc|].
  - destruct (get_weather_data_returns e loc w) as (v & w' & H & _). eauto.
  - eexists _, _. reflexivity.
Qed.

(** ** Reference-table lookup *)

Lemma matches_eqb (soil_type crop_type : string) (r : row) :
  String.eqb (Soil_type r) soil_type && String.eqb (Crop_type r) crop_type = true
  <-> matches soil_type crop_type r.
Proof.
  unfold matches. rewrite andb_true_iff, !String.eqb_eq. reflexivity.
Qed.

Lemma select_first_match (df : list row) (soil_type crop_type : string) (r : row) :
  In r df -> matches soil_type crop_type r ->
  exists pre x post rest,
    df = (pre ++ x :: post)%list /\
    matches soil_type crop_type x /\
    (forall y, In y pre -> ~ matches soil_type crop_type y) /\
    select df soil_type crop_type = x :: rest.
Proof.
  induction df as [|a df IH]; intros Hin Hm; [contradiction|].
  unfold select. cbn [filter].
  destruct (String.eqb (Soil_type a) soil_type && String.eqb (Crop_type a) crop_type) eqn:E.
  - exists [], a, df. eexists. repeat split; try (apply matches_eqb in E; apply E).
    intros y [].
  - assert (Hin' : In r df).
    { destruct Hin as [->|]; [|assumption].
      apply matches_eqb in Hm. congruence. }
    destruct (IH Hin' Hm) as (pre & x & post & rest & -> & Hx & Hpre & Hsel).
    exists (a :: pre), x, post, rest. repeat split; try apply Hx.
    + intros y [<-|Hy]; [|auto].
      intro Hy. apply matches_eqb in Hy. congruence.
    + exact Hsel.
Qed.

Lemma select_absent (df : list row) (soil_type crop_type : string) :
  (forall r, In r df -> ~ matches soil_type crop_type r) ->
  select df soil_type crop_type = [].
Proof.
  induction df as [|a df IH]; intros H; [reflexivity|].
  unfold select. cbn [filter].
  destruct (String.eqb (Soil_type a) soil_type && String.eqb (Crop_type a) crop_type) eqn:E.
  - apply matches_eqb in E. exfalso. exact (H a (or_introl eq_refl) E).
  - apply IH. intros r Hr. apply H. right. exact Hr.
Qed.

(** C5. Lookup compares both keys exactly.  For a pair that occurs in the
    table the engine reads the first row, in table order, that carries the
    pair (and that row is an element of the table, so its nutrient values are
    the stored ones); for a pair that does not occur the engine returns the
    error dict "No data for this soil-crop combination." and touches
    nothing. *)
Theorem lookup_first_match_or_no_data (soil_type crop_type : string) :
  (forall r, In r SAMPLE_DATA -> matches soil_type crop_type r ->
     exists pre x post,
       SAMPLE_DATA = (pre ++ x :: post)%list /\
       matches soil_type crop_type x /\
       (forall y, In y pre -> ~ matches soil_type crop_type y) /\
       empty (select SAMPLE_DATA soil_type crop_type) = false /\
       iloc0 (select SAMPLE_DATA soil_type crop_type) = Ok x) /\
  ((forall r, In r SAMPLE_DATA -> ~ matches soil_type crop_type r) ->
     forall e land_size fallow use_my_location lat lon manual_location w,
       fertilizer_recommendation e soil_type crop_type land_size fallow
         use_my_location lat lon manual_location w
       = (Ok (ErrorDict "No data for this soil-crop combination."), w)).
Proof.
  split.
  - intros r Hin Hm.
    destruct (select_first_match SAMPLE_DATA soil_type crop_type r Hin Hm)
      as (pre & x & post & rest & Hsplit & Hx & Hpre & Hsel).
    exists pre, x, post. rewrite Hsel. repeat split; try assumption; apply Hx.
  - intros Habs e land_size fallow use_my_location lat lon manual_location w.
    rewrite fertilizer_recommendation_unfold.
    rewrite (select_absent SAMPLE_DATA soil_type crop_type Habs). reflexivity.
Qed.

Lemma lookup_first_match_or_no_data_witness :
  (exists pre x post,
     SAMPLE_DATA = (pre ++ x :: post)%list /\
     matches "Clay" "Wheat" x /\
     (forall y, In y pre -> ~ matches "Clay" "Wheat" y) /\
     empty (select SAMPLE_DATA "Clay" "Wheat") = false /\
     iloc0 (select SAMPLE_DATA "Clay" "Wheat") = Ok x) /\
  fertilizer_recommendation offline "red" "Rice" (FFin 100) 1 false None None None initial_world
  = (Ok (ErrorDict "No data for this soil-crop combination."), initial_world).
Proof.
  split.
  - apply (proj1 (lookup_first_match_or_no_data "Clay" "Wheat")
             {| Soil_type := "Clay"; Crop_type := "Wheat";
                Avail_N := 220; Avail_P := 9; Exch_K := 90 |}).
    + simpl. tauto.
    + split; reflexivity.
  - apply (proj2 (lookup_first_match_or_no_data "red" "Rice")).
    intros r Hin [Hs _]. simpl in Hin.
    repeat (destruct Hin as [<-|Hin]; [discriminate Hs|]). exact Hin.
Defined.

(** For each stored pair the row read back is the stored row. *)
Example lookup_stored_values :
  map (fun r => iloc0 (select SAMPLE_DATA (Soil_type r) (Crop_type r))) SAMPLE_DATA
  = map Ok SAMPLE_DATA.
Proof. reflexivity. Qed.

(** ** Fertilizer thresholds *)

Lemma needed_In (r : row) :
  (In "Urea" (needed r) <-> Avail_N r < 280) /\
  (In "Single Super Phosphate" (needed r) <-> Avail_P r < 10) /\
  (In "Muriate of Potash" (needed r) <-> Exch_K r < 110).
Proof.
  unfold needed.
  destruct (Z.ltb_spec (Avail_N r) 280), (Z.ltb_spec (Avail_P r) 10),
    (Z.ltb_spec (Exch_K r) 110); cbn; repeat split; intros; try lia;
    try tauto;
    repeat match goal with
           | H : _ \/ _ |- _ => destruct H
           | H : False |- _ => destruct H
           | H : _ = _ |- _ => discriminate H
           end.
Qed.

(** C1. When the pair selects a row and the resolved snapshot has status
    ok, the engine returns a recommendation whose fertilizer list is the
    sublist of [Urea; Single Super Phosphate; Muriate of Potash] picked by
    the three thresholds on the first selected row, in that order: Urea iff
    nitrogen < 280, Single Super Phosphate iff phosphorus < 10, Muriate of
    Potash iff potassium < 110. *)
Theorem fertilizers_by_threshold (e : env) soil_type crop_type land_size fallow
    use_my_location lat lon manual_location (w w' : world) (row : row) rest v :
  select SAMPLE_DATA soil_type crop_type = row :: rest ->
  resolve_weather e use_my_location lat lon manual_location w = (Ok v, w') ->
  status v = "ok" ->
  exists r,
    fertilizer_recommendation e soil_type crop_type land_size fallow
      use_my_location lat lon manual_location w = (Ok (Recommendation r), w') /\
    fertilizers r =
      ((if Avail_N row <? 280 then ["Urea"] else []) ++
       (if Avail_P row <? 10 then ["Single Super Phosphate"] else []) ++
       (if Exch_K row <? 110 then ["Muriate of Potash"] else []))%list /\
    (In "Urea" (fertilizers r) <-> Avail_N row < 280) /\
    (In "Single Super Phosphate" (fertilizers r) <-> Avail_P row < 10) /\
    (In "Muriate of Potash" (fertilizers r) <-> Exch_K row < 110).
Proof.
  intros Hsel Hres Hok.
  rewrite fertilizer_recommendation_unfold, Hsel, Hres.
  destruct v as [s|m]; [|discriminate Hok].
  eexists. split; [reflexivity|]. cbn [fertilizers].
  split; [reflexivity|]. apply needed_In.
Qed.

Lemma fertilizers_by_threshold_witness :
  exists r,
    fertilizer_recommendation offline "Red" "Rice" (FFin 100) 1 false None None None initial_world
      = (Ok (Recommendation r), initial_world) /\
    fertilizers r = ["Urea"; "Single Super Phosphate"; "Muriate of Potash"] /\
    (In "Urea" (fertilizers r) <-> 250 < 280) /\
    (In "Single Super Phosphate" (fertilizers r) <-> 8 < 10) /\
    (In "Muriate of Potash" (fertilizers r) <-> 100 < 110).
Proof.
  apply (fertilizers_by_threshold offline "Red" "Rice" (FFin 100) 1 false None None None
           initial_world initial_world
           {| Soil_type := "Red"; Crop_type := "Rice";
              Avail_N := 250; Avail_P := 8; Exch_K := 100 |} [] default_weather);
    reflexivity.
Defined.

(** The boundary row (280, 11, 110) and the rich row (300, 12, 120) need
    nothing; the table's other rows need all three. *)
Example needed_per_row :
  map needed SAMPLE_DATA =
  [ ["Urea"; "Single Super Phosphate"; "Muriate of Potash"];
    [];
    ["Urea"; "Single Super Phosphate"; "Muriate of Potash"];
    ["Urea"; "Single Super Phosphate"; "Muriate of Potash"];
    [] ].
Proof. reflexivity. Qed.

(** ** All-or-nothing assembly *)

Lemma status_cases (v : weather_dict) :
  (status v = "ok" /\ exists s, v = WeatherOk s) \/
  (status v = "error" /\ exists m, v = WeatherError m).
Proof.
  destruct v as [s|m]; [left|right]; split; eauto.
Qed.

(** C4. The engine always returns, and what it returns is one of two
    things.  A recommendation, with all four fields, exactly in the case
    where a row was selected and the resolved snapshot, which it embeds, has
    status ok; or an error dict, exactly in the case where no row was
    selected (nothing else is done) or the resolved snapshot has status
    error (its message is the error). *)
Theorem recommendation_all_or_nothing (e : env) soil_type crop_type land_size fallow
    use_my_location lat lon manual_location (w : world) :
  exists out w',
    fertilizer_recommendation e soil_type crop_type land_size fallow
      use_my_location lat lon manual_location w = (Ok out, w') /\
    ((exists r row rest,
        out = Recommendation r /\
        select SAMPLE_DATA soil_type crop_type = row :: rest /\
        resolve_weather e use_my_location lat lon manual_location w = (Ok (weather r), w') /\
        status (weather r) = "ok" /\
        fertilizers r = needed row /\
        land_size_m2 r = land_size /\
        fallow_years r = fallow)
     \/
     (exists msg,
        out = ErrorDict msg /\
        ((select SAMPLE_DATA soil_type crop_type = [] /\ w' = w /\
          msg = "No data for this soil-crop combination.")
         \/
         (select SAMPLE_DATA soil_type crop_type <> [] /\
          resolve_weather e use_my_location lat lon manual_location w
            = (Ok (WeatherError msg), w'))))).
Proof.
  rewrite fertilizer_recommendation_unfold.
  destruct (select SAMPLE_DATA soil_type crop_type) as [|row rest] eqn:Hsel.
  - eexists _, _. split; [reflexivity|]. right. eexists. split; [reflexivity|].
    left. auto.
  - destruct (resolve_weather_returns e use_my_location lat lon manual_location w)
      as (v & w' & Hres).
    rewrite Hres. destruct v as [s|m].
    + eexists _, _. split; [reflexivity|]. left.
      eexists _, row, rest. repeat split.
    + eexists _, _. split; [reflexivity|]. right. eexists. split; [reflexivity|].
      right. split; [discriminate|reflexivity].
Qed.

(** ** Which snapshot the engine goes on with *)

Lemma truthy_str_blank (x : option string) :
  absent_or_blank x -> truthy_str x = false.
Proof.
  intros [->| ->]; reflexivity.
Qed.

Lemma truthy_float_zero (x : option float) :
  absent_or_zero x -> truthy_float x = false.
Proof.
  destruct x as [[|b|q]|]; simpl; try reflexivity; try contradiction.
  intro H. apply Qeq_bool_iff in H. rewrite H. reflexivity.
Qed.

Lemma default_when_no_source (e : env) soil_type crop_type land_size fallow
    use_my_location lat lon manual_location (w : world) :
  weather_source e use_my_location lat lon manual_location = None ->
  resolve_weather e use_my_location lat lon manual_location w = (Ok default_weather, w) /\
  exists out,
    fertilizer_recommendation e soil_type crop_type land_size fallow
      use_my_location lat lon manual_location w = (Ok out, w) /\
    (forall row rest, select SAMPLE_DATA soil_type crop_type = row :: rest ->
       out = Recommendation {| fertilizers := needed row;
                               land_size_m2 := land_size;
                               fallow_years := fallow;
                               weather := default_weather |}).
Proof.
  intro Hsrc.
  assert (Hres : resolve_weather e use_my_location lat lon manual_location w
                 = (Ok default_weather, w)).
  { unfold resolve_weather. rewrite Hsrc. reflexivity. }
  split; [exact Hres|].
  rewrite fertilizer_recommendation_unfold, Hres.
  destruct (select SAMPLE_DATA soil_type crop_type) as [|row rest].
  - eexists. split; [reflexivity|]. intros ? ? [=].
  - eexists. split; [reflexivity|]. intros ? ? [= <- _]. reflexivity.
Qed.

(** C6. With no credential ([API_KEY] unset) the weather step yields the
    fixed default snapshot (status ok, temperature 25, rainfall 0, humidity
    60, wind speed 2, soil temperature 23, soil moisture 50) and the engine
    leaves the process state as it was: no outbound call is logged and the
    cache is not consulted.  Whenever a row is selected, the recommendation
    embeds exactly that snapshot. *)
Theorem no_credential_uses_default (e : env) soil_type crop_type land_size fallow
    use_my_location lat lon manual_location (w : world) :
  API_KEY e = None ->
  default_weather =
    WeatherOk {| temperature := PNum 25; rainfall := PNum 0; humidity := PNum 60;
                 wind_speed := PNum 2; soil_temp := PNum 23; soil_moisture := PNum 50 |} /\
  resolve_weather e use_my_location lat lon manual_location w = (Ok default_weather, w) /\
  exists out,
    fertilizer_recommendation e soil_type crop_type land_size fallow
      use_my_location lat lon manual_location w = (Ok out, w) /\
    (forall row rest, select SAMPLE_DATA soil_type crop_type = row :: rest ->
       out = Recommendation {| fertilizers := needed row;
                               land_size_m2 := land_size;
                               fallow_years := fallow;
                               weather := default_weather |}).
Proof.
  intro Hkey. split; [reflexivity|].
  apply default_when_no_source.
  unfold weather_source. rewrite Hkey. cbn [truthy_str].
  rewrite !andb_false_r. reflexivity.
Qed.

Lemma no_credential_uses_default_witness :
  default_weather =
    WeatherOk {| temperature := PNum 25; rainfall := PNum 0; humidity := PNum 60;
                 wind_speed := PNum 2; soil_temp := PNum 23; soil_moisture := PNum 50 |} /\
  resolve_weather offline true (Some (FFin 28)) (Some (FFin 77)) (Some "Delhi") initial_world
    = (Ok default_weather, initial_world) /\
  exists out,
    fertilizer_recommendation offline "Sandy" "Maize" (FFin 100) 1
      true (Some (FFin 28)) (Some (FFin 77)) (Some "Delhi") initial_world = (Ok out, initial_world) /\
    (forall row rest, select SAMPLE_DATA "Sandy" "Maize" = row :: rest ->
       out = Recommendation {| fertilizers := needed row;
                               land_size_m2 := FFin 100;
                               fallow_years := 1;
                               weather := default_weather |}).
Proof.
  apply (no_credential_uses_default offline "Sandy" "Maize" (FFin 100) 1
           true (Some (FFin 28)) (Some (FFin 77)) (Some "Delhi") initial_world).
  reflexivity.
Defined.

(** C10. When every location identifier is falsy (the place name is missing
    or empty and, if the use-my-location flag is set, latitude or longitude
    is missing or zero), the weather step yields the fixed default snapshot
    and the engine leaves the process state as it was (no outbound call),
    whatever the credential is.  Whenever a row is selected, the
    recommendation embeds exactly the default snapshot. *)
Theorem falsy_location_uses_default (e : env) soil_type crop_type land_size fallow
    use_my_location lat lon manual_location (w : world) :
  absent_or_blank manual_location ->
  (use_my_location = true -> absent_or_zero lat \/ absent_or_zero lon) ->
  resolve_weather e use_my_location lat lon manual_location w = (Ok default_weather, w) /\
  exists out,
    fertilizer_recommendation e soil_type crop_type land_size fallow
      use_my_location lat lon manual_location w = (Ok out, w) /\
    (forall row rest, select SAMPLE_DATA soil_type crop_type = row :: rest ->
       out = Recommendation {| fertilizers := needed row;
                               land_size_m2 := land_size;
                               fallow_years := fallow;
                               weather := default_weather |}).
Proof.
  intros Hman Hloc.
  apply default_when_no_source.
  unfold weather_source. rewrite (truthy_str_blank _ Hman). cbn [andb orb].
  destruct use_my_location; [|reflexivity].
  destruct (Hloc eq_refl) as [H|H]; rewrite (truthy_float_zero _ H);
    cbn [andb orb]; rewrite ?andb_false_r; reflexivity.
Qed.

Lemma falsy_location_uses_default_witness :
  resolve_weather (online fair_weather) true (Some (FFin 0)) (Some (FFin 77)) (Some "") initial_world
    = (Ok default_weather, initial_world) /\
  exists out,
    fertilizer_recommendation (online fair_weather) "Red" "Rice" (FFin 100) 1
      true (Some (FFin 0)) (Some (FFin 77)) (Some "") initial_world = (Ok out, initial_world) /\
    (forall row rest, select SAMPLE_DATA "Red" "Rice" = row :: rest ->
       out = Recommendation {| fertilizers := needed row;
                               land_size_m2 := FFin 100;
                               fallow_years := 1;
                               weather := default_weather |}).
Proof.
  apply (falsy_location_uses_default (online fair_weather) "Red" "Rice" (FFin 100) 1
           true (Some (FFin 0)) (Some (FFin 77)) (Some "") initial_world).
  - right. reflexivity.
  - intros _. left. reflexivity.
Defined.

(** ** Normalising the provider payload *)

Lemma rbind_Ok_inv {A B} (r : result A) (k : A -> result B) (b : B) :
  rbind r k = Ok b -> exists a, r = Ok a /\ k a = Ok b.
Proof.
  destruct r as [a|ex]; simpl; [eauto|discriminate].
Qed.

Ltac invert_binds :=
  repeat match goal with
         | H : rbind _ _ = Ok _ |- _ =>
             apply rbind_Ok_inv in H; destruct H as (? & ? & H)
         end.

Ltac same_reads :=
  repeat match goal with
         | H1 : ?a = Ok ?x, H2 : ?a = Ok ?y |- _ =>
             rewrite H1 in H2; injection H2 as <-
         end.

Lemma normalize_inv (data : pyval) (s : snapshot) :
  normalize data = Ok (WeatherOk s) ->
  exists main wind rain t2 h10,
    getitem data "main" = Ok main /\
    getitem main "temp" = Ok (temperature s) /\
    getitem main "humidity" = Ok (humidity s) /\
    getitem data "wind" = Ok wind /\
    getitem wind "speed" = Ok (wind_speed s) /\
    get data "rain" (PDict []) = Ok rain /\
    get rain "1h" (PNum 0) = Ok (rainfall s) /\
    sub (temperature s) 2 = Ok t2 /\
    add (humidity s) 10 = Ok h10 /\
    soil_temp s = PNum (Py.max 10 t2) /\
    soil_moisture s = PNum (Py.min 100 h10).
Proof.
  intro H. unfold normalize in H. invert_binds. same_reads.
  injection H as <-. cbn [temperature humidity wind_speed rainfall soil_temp soil_moisture].
  do 5 eexists. repeat split; eassumption.
Qed.

Lemma normalize_well_formed (data main wind rain tv hv sp r1h : pyval) (t2 h10 : num) :
  getitem data "main" = Ok main ->
  getitem main "temp" = Ok tv ->
  getitem main "humidity" = Ok hv ->
  getitem data "wind" = Ok wind ->
  getitem wind "speed" = Ok sp ->
  get data "rain" (PDict []) = Ok rain ->
  get rain "1h" (PNum 0) = Ok r1h ->
  sub tv 2 = Ok t2 ->
  add hv 10 = Ok h10 ->
  normalize data =
  Ok (WeatherOk {| temperature := tv; rainfall := r1h; humidity := hv; wind_speed := sp;
                   soil_temp := PNum (Py.max 10 t2);
                   soil_moisture := PNum (Py.min 100 h10) |}).
Proof.
  intros Hm Ht Hh Hw Hs Hr H1 Et Eh. unfold normalize.
  rewrite Hm. cbn [rbind]. rewrite Ht. cbn [rbind]. rewrite Hr. cbn [rbind].
  rewrite H1. cbn [rbind]. rewrite Hh. cbn [rbind]. rewrite Hw. cbn [rbind].
  rewrite Hs. cbn [rbind]. rewrite Et. cbn [rbind]. rewrite Eh. reflexivity.
Qed.

Lemma omitted_rain_is_zero (data rain r1h main : pyval) :
  getitem data "main" = Ok main ->
  get data "rain" (PDict []) = Ok rain ->
  get rain "1h" (PNum 0) = Ok r1h ->
  hourly_rain data = None ->
  r1h = PNum 0.
Proof.
  intros Hm Hr H1 Hnone.
  destruct data as [| | | | |d]; try discriminate Hm.
  cbn in Hr, Hnone.
  destruct (assoc "rain" d) as [rv|].
  - injection Hr as <-.
    destruct rv as [| | | | |r]; try discriminate H1.
    cbn in H1. rewrite Hnone in H1. congruence.
  - injection Hr as <-. cbn in H1. congruence.
Qed.

Lemma as_number_value (n : num) (q : Q) :
  value n = FFin q -> as_number (PNum n) = Some q.
Proof.
  intro H. unfold as_number. cbn [as_num]. rewrite H. reflexivity.
Qed.

(** C7. Whenever the adapter, on a fresh provider answer, returns an ok
    snapshot, the answer was a JSON document whose temperature and humidity
    are the snapshot's and are numbers, the snapshot's soil temperature is
    max(10, temperature - 2) and its soil moisture is min(100, humidity + 10)
    in the interpreter's arithmetic (exact on ints, rounded to binary64 on
    floats; NaN is never above 10 nor below 100, so it gives the clamp), and
    its rainfall is 0 whenever the document carries no hourly rainfall
    reading. *)
Theorem derived_soil_fields (e : env) (loc : location) (w w' : world) (s : snapshot) :
  get_weather_data_wrapped e loc w = (Ok (WeatherOk s), w') ->
  exists data main t2 h10,
    provider e (length (calls w)) (url_of e loc) = Json data /\
    getitem data "main" = Ok main /\
    getitem main "temp" = Ok (temperature s) /\
    getitem main "humidity" = Ok (humidity s) /\
    sub (temperature s) 2 = Ok t2 /\
    add (humidity s) 10 = Ok h10 /\
    soil_temp s = PNum (Py.max 10 t2) /\
    soil_moisture s = PNum (Py.min 100 h10) /\
    (forall q, value t2 = FFin q -> as_number (soil_temp s) = Some (Qmax 10 q)) /\
    (forall q, value h10 = FFin q -> as_number (soil_moisture s) = Some (Qmin 100 q)) /\
    (value t2 = FNaN -> soil_temp s = PNum 10) /\
    (value h10 = FNaN -> soil_moisture s = PNum 100) /\
    (forall z, temperature s = PNum (NInt z) -> t2 = NInt (z - 2)) /\
    (forall z, humidity s = PNum (NInt z) -> h10 = NInt (z + 10)) /\
    (forall q, temperature s = PNum (NFloat (FFin q)) -> t2 = NFloat (round64 (q - 2))) /\
    (forall q, humidity s = PNum (NFloat (FFin q)) -> h10 = NFloat (round64 (q + 10))) /\
    (hourly_rain data = None -> rainfall s = PNum 0).
Proof.
  rewrite get_weather_data_wrapped_run. intros [= H _].
  destruct (provider e (length (calls w)) (url_of e loc)) as [m|m|data];
    try discriminate H.
  destruct (normalize data) as [v|ex] eqn:Hn; [subst v|discriminate H].
  destruct (normalize_inv data s Hn)
    as (main & wind & rain & t2 & h10 & Hm & Ht & Hh & _ & _ & Hr & H1 & Et & Eh & Hst & Hsm).
  exists data, main, t2, h10.
  repeat split; try assumption.
  - intros q Hq. rewrite Hst. apply as_number_value. exact (max_value 10 t2 q Hq).
  - intros q Hq. rewrite Hsm. apply as_number_value. exact (min_value 100 h10 q Hq).
  - intro Hq. rewrite Hst. unfold Py.max. rewrite Hq. reflexivity.
  - intro Hq. rewrite Hsm. unfold Py.min. rewrite Hq. reflexivity.
  - intros z Hz. rewrite Hz in Et. cbn in Et. congruence.
  - intros z Hz. rewrite Hz in Eh. cbn in Eh. congruence.
  - intros q Hq. rewrite Hq in Et. unfold sub in Et. cbn [as_num] in Et.
    injection Et as <-. reflexivity.
  - intros q Hq. rewrite Hq in Eh. unfold add in Eh. cbn [as_num] in Eh.
    injection Eh as <-. reflexivity.
  - intro Hnone. exact (omitted_rain_is_zero data rain (rainfall s) main Hm Hr H1 Hnone).
Qed.

Lemma derived_soil_fields_witness :
  exists data main t2 h10,
    provider (online (fun _ _ => Json (sample_payload 5 95))) 0
      (url_of (online (fun _ _ => Json (sample_payload 5 95))) (Named (Some "Delhi")))
      = Json data /\
    getitem data "main" = Ok main /\
    getitem main "temp" = Ok (PNum 5) /\
    getitem main "humidity" = Ok (PNum 95) /\
    sub (PNum 5) 2 = Ok t2 /\
    add (PNum 95) 10 = Ok h10 /\
    PNum 10 = PNum (Py.max 10 t2) /\
    PNum 100 = PNum (Py.min 100 h10) /\
    (forall q, value t2 = FFin q -> as_number (PNum 10) = Some (Qmax 10 q)) /\
    (forall q, value h10 = FFin q -> as_number (PNum 100) = Some (Qmin 100 q)) /\
    (value t2 = FNaN -> PNum 10 = PNum 10) /\
    (value h10 = FNaN -> PNum 100 = PNum 100) /\
    (forall z, PNum 5 = PNum (NInt z) -> t2 = NInt (z - 2)) /\
    (forall z, PNum 95 = PNum (NInt z) -> h10 = NInt (z + 10)) /\
    (forall q, PNum 5 = PNum (NFloat (FFin q)) -> t2 = NFloat (round64 (q - 2))) /\
    (forall q, PNum 95 = PNum (NFloat (FFin q)) -> h10 = NFloat (round64 (q + 10))) /\
    (hourly_rain data = None -> PNum 0 = PNum 0).
Proof.
  apply (derived_soil_fields (online (fun _ _ => Json (sample_payload 5 95)))
           (Named (Some "Delhi")) initial_world
           {| cache := []; calls := [ByName (Some "Delhi") (Some "k")] |}
           {| temperature := PNum 5; rainfall := PNum 0; humidity := PNum 95;
              wind_speed := PNum 3; soil_temp := PNum 10; soil_moisture := PNum 100 |}).
  reflexivity.
Defined.

(** The four readings of the specification, as the ints a provider sends:
    temperature 5 gives soil temperature 10 and 40 gives 38; humidity 95
    gives soil moisture 100 and 20 gives 30.  As floats, 40.0 gives 38.0 and
    20.0 gives 30.0, and the humidity 29.999999999999996 (the binary64 value
    8444249301319679 / 2^48) gives 40.0: the sum is rounded. *)
Example derived_soil_fields_samples :
  normalize (sample_payload 5 95) =
    Ok (WeatherOk {| temperature := PNum 5; rainfall := PNum 0; humidity := PNum 95;
                     wind_speed := PNum 3; soil_temp := PNum 10; soil_moisture := PNum 100 |}) /\
  normalize (sample_payload 40 20) =
    Ok (WeatherOk {| temperature := PNum 40; rainfall := PNum 0; humidity := PNum 20;
                     wind_speed := PNum 3; soil_temp := PNum 38; soil_moisture := PNum 30 |}) /\
  normalize (sample_payload (FFin 40) (FFin 20)) =
    Ok (WeatherOk {| temperature := PNum (FFin 40); rainfall := PNum 0;
                     humidity := PNum (FFin 20); wind_speed := PNum 3;
                     soil_temp := PNum (FFin 38); soil_moisture := PNum (FFin 30) |}) /\
  normalize (sample_payload (FFin 40) (FFin (8444249301319679 # 281474976710656))) =
    Ok (WeatherOk {| temperature := PNum (FFin 40); rainfall := PNum 0;
                     humidity := PNum (FFin (8444249301319679 # 281474976710656));
                     wind_speed := PNum 3;
                     soil_temp := PNum (FFin 38); soil_moisture := PNum (FFin 40) |}).
Proof. repeat split; vm_compute; reflexivity. Qed.

(** ** The adapter never raises *)

(** C3. For every location, every process state and every behaviour of the
    provider (the request fails, the body is not JSON, or the JSON lacks or
    mistypes a field), the adapter returns rather than raises: either a dict
    with status ok and the six weather fields, or a dict with status error
    whose message is the text of the exception that was caught.  This holds
    for the function itself and for the function behind its cache. *)
Theorem get_weather_data_never_raises (e : env) (loc : location) (w : world) :
  (exists v w',
     get_weather_data_wrapped e loc w = (Ok v, w') /\
     ((status v = "ok" /\ exists s, v = WeatherOk s) \/
      (status v = "error" /\
       exists ex, is_Exception ex = true /\ v = WeatherError (str_exn ex)))) /\
  (exists v w',
     get_weather_data e loc w = (Ok v, w') /\
     ((status v = "ok" /\ exists s, v = WeatherOk s) \/
      (status v = "error" /\ exists m, v = WeatherError m))).
Proof.
  split.
  - rewrite get_weather_data_wrapped_run. eexists _, _. split; [reflexivity|].
    destruct (provider e (length (calls w)) (url_of e loc)) as [m|m|data].
    + right. split; [reflexivity|]. exists (RequestException m). auto.
    + right. split; [reflexivity|]. exists (JSONDecodeError m). auto.
    + pose proof (catchable_normalize data) as C.
      destruct (normalize data) as [[s|m]|ex]; cbn in C.
      * left. split; [reflexivity|]. eauto.
      * right. split; [reflexivity|]. exists (TypeError m). auto.
      * right. split; [reflexivity|]. exists ex. auto.
  - destruct (get_weather_data_returns e loc w) as (v & w' & H & _).
    exists v, w'. split; [exact H|]. apply status_cases.
Qed.

(** Three provider behaviours, run: no network, a body that is not JSON, a
    JSON body without the [main] object. *)
Example get_weather_data_failures :
  fst (get_weather_data offline (Named (Some "Delhi")) initial_world)
    = Ok (WeatherError "unreachable") /\
  fst (get_weather_data (online garbled) (Named (Some "Delhi")) initial_world)
    = Ok (WeatherError "Expecting value: line 1 column 1 (char 0)") /\
  fst (get_weather_data (online (fun _ _ => Json (PDict [("cod", PNum 401)])))
         (Coords (Some (FFin 28)) (Some (FFin 77))) initial_world)
    = Ok (WeatherError "'main'").
Proof. repeat split. Qed.

(** ** Coordinates and place names *)

Lemma truthy_float_nonzero (x : float) : nonzero x -> truthy_float (Some x) = true.
Proof.
  destruct x as [|b|q]; simpl; try reflexivity.
  intro H. destruct (Qeq_bool q 0) eqn:E; [|reflexivity].
  apply Qeq_bool_iff in E. contradiction.
Qed.

(** With a non-empty credential, the flag set and both coordinates non-zero,
    the adapter is given the coordinate pair, whatever the place name. *)
Lemma coordinates_take_precedence (e : env) (la lo : float) (manual_location : option string) :
  truthy_str (API_KEY e) = true -> nonzero la -> nonzero lo ->
  weather_source e true (Some la) (Some lo) manual_location = Some (Coords (Some la) (Some lo)).
Proof.
  intros Hk Hla Hlo. unfold weather_source.
  rewrite (truthy_float_nonzero la Hla), (truthy_float_nonzero lo Hlo), Hk. reflexivity.
Qed.

(** C8 (the code departs from it). A request on the equator: credential
    configured, flag set, latitude 0.0 and longitude 77.0 supplied, place
    name "Delhi" supplied.  The one outbound call is the place-name query for
    "Delhi"; the coordinate pair is never passed to the adapter. *)
Theorem zero_latitude_loses_precedence (p : nat -> url -> reply) :
  weather_source (online p) true (Some (FFin 0)) (Some (FFin 77)) (Some "Delhi")
    = Some (Named (Some "Delhi")) /\
  exists out c,
    fertilizer_recommendation (online p) "Red" "Rice" (FFin 100) 1
      true (Some (FFin 0)) (Some (FFin 77)) (Some "Delhi") initial_world
    = (Ok out, {| cache := c; calls := [ByName (Some "Delhi") (Some "k")] |}).
Proof.
  split; [reflexivity|].
  rewrite fertilizer_recommendation_unfold.
  change (select SAMPLE_DATA "Red" "Rice") with
    [{| Soil_type := "Red"; Crop_type := "Rice";
        Avail_N := 250; Avail_P := 8; Exch_K := 100 |}].
  change (resolve_weather (online p) true (Some (FFin 0)) (Some (FFin 77)) (Some "Delhi") initial_world)
    with (get_weather_data (online p) (Named (Some "Delhi")) initial_world).
  destruct (get_weather_data_miss (online p) (Named (Some "Delhi")) initial_world eq_refl)
    as (v & ->).
  destruct v as [s|m]; eexists _, _; reflexivity.
Qed.

(** With no place name the same request makes no call at all. *)
Example zero_latitude_without_place_name (p : nat -> url -> reply) :
  resolve_weather (online p) true (Some (FFin 0)) (Some (FFin 77)) None initial_world
  = (Ok default_weather, initial_world).
Proof. reflexivity. Qed.

(** ** Status codes of the route *)

(** C2 (the code departs from it). Whenever the engine returns an error
    dict, for a missing reference row or for an error snapshot, the route's
    own [except Exception] intercepts the 400 it has just raised: the
    response has status 500 and its detail is the text of the intercepted
    exception. *)
Theorem domain_error_answers_500 (str_num : pyval -> string) (e : env)
    soil_type crop_type land_size fallow use_my_location lat lon manual_location
    (w w' : world) (msg : string) :
  fertilizer_recommendation e soil_type crop_type land_size fallow
    use_my_location lat lon manual_location w = (Ok (ErrorDict msg), w') ->
  api_recommend str_num e soil_type crop_type land_size fallow
    use_my_location lat lon manual_location w
  = ({| status_code := 500; content := JsonDetail (str_exn (HTTPException 400 msg)) |}, w').
Proof.
  intro H. unfold api_recommend, get_recommendation, mtry, mbind.
  rewrite H. reflexivity.
Qed.

Lemma domain_error_answers_500_witness :
  api_recommend plain_str offline "Red" "Cotton" (FFin 100) 1 false None None None initial_world
  = ({| status_code := 500;
        content := JsonDetail "400: No data for this soil-crop combination." |},
     initial_world).
Proof.
  apply (domain_error_answers_500 plain_str offline "Red" "Cotton" (FFin 100) 1
           false None None None initial_world initial_world
           "No data for this soil-crop combination.").
  reflexivity.
Defined.

(** The same for an unavailable provider. *)
Example weather_error_answers_500 :
  fst (api_recommend plain_str (online garbled) "Red" "Rice" (FFin 100) 1
         false None None (Some "Delhi") initial_world)
  = {| status_code := 500;
       content := JsonDetail "400: Expecting value: line 1 column 1 (char 0)" |}.
Proof. reflexivity. Qed.

(** ** The rule table of the renderer *)

Lemma Qltb_false (x y : Q) : Qltb x y = false <-> (y <= x)%Q.
Proof.
  split; intro H.
  - apply Qnot_lt_le. intro L. apply Qltb_true in L. congruence.
  - destruct (Qltb x y) eqn:E; [|reflexivity].
    apply Qltb_true in E. exfalso. exact (Qlt_not_le _ _ E H).
Qed.

Ltac order_facts :=
  repeat match goal with
         | H : Qgtb _ _ = true |- _ => apply Qgtb_true in H
         | H : Qgtb _ _ = false |- _ => apply Qgtb_false in H
         | H : Qltb _ _ = true |- _ => apply Qltb_true in H
         | H : Qltb _ _ = false |- _ => apply Qltb_false in H
         end.

Ltac by_order := first [reflexivity | exfalso; lra].

Lemma gt_value (v : pyval) (x : num) (n : Q) :
  as_num v = Some x -> gt v n = Ok (fgt (value x) n).
Proof.
  intro H. unfold gt. rewrite H. reflexivity.
Qed.

Lemma lt_value (v : pyval) (x : num) (n : Q) :
  as_num v = Some x -> lt v n = Ok (flt (value x) n).
Proof.
  intro H. unfold lt. rewrite H. reflexivity.
Qed.

Lemma as_number_as_num (v : pyval) (q : Q) :
  as_number v = Some q -> exists x, as_num v = Some x /\ value x = FFin q.
Proof.
  unfold as_number. destruct (as_num v) as [x|]; [|discriminate].
  destruct (value x) as [| |q'] eqn:E; try discriminate.
  intros [= ->]. eauto.
Qed.

Lemma rain_lines_distinct :
  heavy_rain_line <> delay_line /\ heavy_rain_line <> dry_line /\ delay_line <> dry_line.
Proof.
  repeat split; intro H; apply String.eqb_eq in H; vm_compute in H; discriminate H.
Qed.

Lemma rain_line_cases (r : Q) :
  ((10 < r)%Q -> rain_line r = heavy_rain_line) /\
  ((5 < r)%Q -> (r <= 10)%Q -> rain_line r = delay_line) /\
  ((r <= 5)%Q -> rain_line r = dry_line).
Proof.
  unfold rain_line.
  destruct (Qlt_le_dec 10 r) as [H10|H10], (Qlt_le_dec 5 r) as [H5|H5];
    repeat split; intros; try reflexivity.
  all: exfalso; lra.
Qed.

(** Lines 62-68, for every number. *)
Lemma rain_advice_value (s : snapshot) (x : num) (acc : list string) :
  as_num (rainfall s) = Some x ->
  rain_advice (WeatherOk s) acc = Ok (append acc (rain_line_of (value x))).
Proof.
  intro Hx. unfold rain_advice. cbn [weather_item String.eqb Ascii.eqb Bool.eqb rbind].
  rewrite !(gt_value _ x _ Hx). cbn [rbind].
  destruct (value x) as [|[|]|r]; try reflexivity.
  cbn [fgt rain_line_of]. unfold rain_line.
  destruct (Qgtb r 10) eqn:E10; [|cbn [rbind]; destruct (Qgtb r 5) eqn:E5];
    order_facts; destruct (Qlt_le_dec 10 r), (Qlt_le_dec 5 r); by_order.
Qed.

(** Lines 70-73, for every number. *)
Lemma wind_advice_value (s : snapshot) (x : num) (acc : list string) :
  as_num (wind_speed s) = Some x ->
  wind_advice (WeatherOk s) acc = Ok (acc ++ wind_lines_of (value x))%list.
Proof.
  intro Hx. unfold wind_advice. cbn [weather_item String.eqb Ascii.eqb Bool.eqb rbind].
  rewrite !(gt_value _ x _ Hx). cbn [rbind].
  destruct (value x) as [|[|]|v]; cbn [fgt wind_lines_of negb rbind];
    rewrite ?app_nil_r; try reflexivity.
  unfold wind_lines.
  destruct (Qgtb v 8) eqn:E8; [|cbn [rbind]; destruct (Qgtb v 5) eqn:E5];
    order_facts; destruct (Qlt_le_dec 8 v), (Qlt_le_dec 5 v);
    rewrite ?app_nil_r; by_order.
Qed.

(** Lines 76-85, for every pair of numbers. *)
Lemma soil_advice_value (s : snapshot) (x y : num) :
  as_num (soil_temp s) = Some x ->
  as_num (soil_moisture s) = Some y ->
  soil_advice_of (WeatherOk s) =
  Ok (soil_temp_lines_of (value x) ++ soil_moisture_lines_of (value y))%list.
Proof.
  intros Hx Hy. unfold soil_advice_of.
  cbn [weather_item String.eqb Ascii.eqb Bool.eqb rbind].
  rewrite !(gt_value _ x _ Hx), !(lt_value _ x _ Hx),
    !(gt_value _ y _ Hy), !(lt_value _ y _ Hy).
  cbn [rbind].
  assert (Hy' : forall front : list string,
            (if fgt (value y) 85
             then Ok (append front waterlogged_line)
             else (_ <- Ok (flt (value y) 40) ;;
                   if flt (value y) 40 then Ok (append front dry_soil_line) else Ok front))
            = Ok (front ++ soil_moisture_lines_of (value y))%list).
  { intro front. destruct (value y) as [|[|]|m];
      cbn [fgt flt soil_moisture_lines_of negb rbind]; rewrite ?app_nil_r; try reflexivity.
    unfold soil_moisture_lines.
    destruct (Qgtb m 85) eqn:E3; [|cbn [rbind]; destruct (Qltb m 40) eqn:E4];
      order_facts; destruct (Qlt_le_dec 85 m), (Qlt_le_dec m 40);
      rewrite ?app_nil_r; by_order. }
  destruct (value x) as [|[|]|t]; cbn [fgt flt soil_temp_lines_of negb rbind];
    try (apply Hy').
  unfold soil_temp_lines.
  destruct (Qltb t 15) eqn:E1; [|cbn [rbind]; destruct (Qgtb t 30) eqn:E2];
    cbn [rbind]; order_facts; destruct (Qlt_le_dec t 15), (Qlt_le_dec 30 t);
    try (exfalso; lra); apply Hy'.
Qed.

Lemma rain_advice_numeric (s : snapshot) (r : Q) (acc : list string) :
  as_number (rainfall s) = Some r ->
  rain_advice (WeatherOk s) acc = Ok (append acc (rain_line r)).
Proof.
  intro Hr. destruct (as_number_as_num _ _ Hr) as (x & Hx & Hv).
  rewrite (rain_advice_value s x acc Hx), Hv. reflexivity.
Qed.

Lemma wind_advice_lines (s : snapshot) (v : Q) (acc : list string) :
  as_number (wind_speed s) = Some v ->
  wind_advice (WeatherOk s) acc = Ok (acc ++ wind_lines v)%list.
Proof.
  intro Hv. destruct (as_number_as_num _ _ Hv) as (x & Hx & Hx').
  rewrite (wind_advice_value s x acc Hx), Hx'. reflexivity.
Qed.

Lemma soil_advice_lines (s : snapshot) (t m : Q) :
  as_number (soil_temp s) = Some t ->
  as_number (soil_moisture s) = Some m ->
  soil_advice_of (WeatherOk s) = Ok (soil_temp_lines t ++ soil_moisture_lines m)%list.
Proof.
  intros Ht Hm.
  destruct (as_number_as_num _ _ Ht) as (x & Hx & Hx').
  destruct (as_number_as_num _ _ Hm) as (y & Hy & Hy').
  rewrite (soil_advice_value s x y Hx Hy), Hx', Hy'. reflexivity.
Qed.

(** The whole message for an ok snapshot whose four rendered readings are
    numbers of any kind. *)
Lemma render_value (str_num : pyval -> string)
    (rec : recommendation) (s : snapshot) (r v t m : num) :
  weather rec = WeatherOk s ->
  as_num (rainfall s) = Some r ->
  as_num (wind_speed s) = Some v ->
  as_num (soil_temp s) = Some t ->
  as_num (soil_moisture s) = Some m ->
  generate_farmer_message str_num rec =
  Ok (compile_message
        (str_num (PNum (land_size_m2 rec))) (str_of_int (fallow_years rec))
        (str_num (soil_temp s)) (str_num (soil_moisture s))
        (rain_line_of (value r) :: wind_lines_of (value v))
        (soil_temp_lines_of (value t) ++ soil_moisture_lines_of (value m))%list
        (fert_advice_of (fertilizers rec))
        (fallow_msg_of (fallow_years rec))).
Proof.
  intros Hw Hr Hv Ht Hm. unfold generate_farmer_message. rewrite Hw.
  rewrite (rain_advice_value s r [] Hr). cbn [rbind].
  rewrite (wind_advice_value s v _ Hv). cbn [rbind].
  rewrite (soil_advice_value s t m Ht Hm). reflexivity.
Qed.

Lemma render_numeric (str_num : pyval -> string)
    (rec : recommendation) (s : snapshot) (r v t m : Q) :
  weather rec = WeatherOk s ->
  as_number (rainfall s) = Some r ->
  as_number (wind_speed s) = Some v ->
  as_number (soil_temp s) = Some t ->
  as_number (soil_moisture s) = Some m ->
  generate_farmer_message str_num rec =
  Ok (compile_message
        (str_num (PNum (land_size_m2 rec))) (str_of_int (fallow_years rec))
        (str_num (soil_temp s)) (str_num (soil_moisture s))
        (rain_line r :: wind_lines v)
        (soil_temp_lines t ++ soil_moisture_lines m)%list
        (fert_advice_of (fertilizers rec))
        (fallow_msg_of (fallow_years rec))).
Proof.
  intros Hw Hr Hv Ht Hm.
  destruct (as_number_as_num _ _ Hr) as (xr & Hxr & Er).
  destruct (as_number_as_num _ _ Hv) as (xv & Hxv & Ev).
  destruct (as_number_as_num _ _ Ht) as (xt & Hxt & Et).
  destruct (as_number_as_num _ _ Hm) as (xm & Hxm & Em).
  rewrite (render_value str_num rec s xr xv xt xm Hw Hxr Hxv Hxt Hxm), Er, Ev, Et, Em.
  reflexivity.
Qed.

(** When the renderer raises: an error dict, or a reading that is not a
    number. *)
Lemma render_raises (str_num : pyval -> string) (rec : recommendation) :
  (forall m, weather rec = WeatherError m ->
     generate_farmer_message str_num rec = Raise (KeyError "rainfall")) /\
  (forall s, weather rec = WeatherOk s ->
     as_num (rainfall s) = None \/ as_num (wind_speed s) = None \/
     as_num (soil_temp s) = None \/ as_num (soil_moisture s) = None ->
     exists msg, generate_farmer_message str_num rec = Raise (TypeError msg)).
Proof.
  split.
  - intros m Hw. unfold generate_farmer_message. rewrite Hw. reflexivity.
  - intros s Hw Hbad. unfold generate_farmer_message. rewrite Hw.
    destruct (as_num (rainfall s)) as [r|] eqn:Hr.
    2:{ unfold rain_advice, gt. cbn [weather_item String.eqb Ascii.eqb Bool.eqb rbind].
        rewrite Hr. eexists. reflexivity. }
    rewrite (rain_advice_value s r [] Hr). cbn [rbind].
    destruct (as_num (wind_speed s)) as [v|] eqn:Hv.
    2:{ unfold wind_advice, gt. cbn [weather_item String.eqb Ascii.eqb Bool.eqb rbind].
        rewrite Hv. eexists. reflexivity. }
    rewrite (wind_advice_value s v _ Hv). cbn [rbind].
    destruct (as_num (soil_temp s)) as [t|] eqn:Ht.
    2:{ unfold soil_advice_of, lt.
        cbn [weather_item String.eqb Ascii.eqb Bool.eqb rbind].
        rewrite Ht. eexists. reflexivity. }
    destruct (as_num (soil_moisture s)) as [m|] eqn:Hm.
    1:{ exfalso. destruct Hbad as [H|[H|[H|H]]]; discriminate H. }
    unfold soil_advice_of. cbn [weather_item String.eqb Ascii.eqb Bool.eqb rbind].
    rewrite !(gt_value _ t _ Ht), !(lt_value _ t _ Ht). unfold gt.
    rewrite Hm. cbn [rbind].
    destruct (flt (value t) 15); [|cbn [rbind]; destruct (fgt (value t) 30)];
      eexists; reflexivity.
Qed.

(** Conversely, a message that was rendered was rendered from an ok dict
    with four numbers. *)
Lemma render_inv (str_num : pyval -> string) (rec : recommendation) (msg : string) :
  generate_farmer_message str_num rec = Ok msg ->
  exists s r v t m,
    weather rec = WeatherOk s /\
    as_num (rainfall s) = Some r /\ as_num (wind_speed s) = Some v /\
    as_num (soil_temp s) = Some t /\ as_num (soil_moisture s) = Some m.
Proof.
  intro H. destruct (render_raises str_num rec) as (Herr & Hbad).
  destruct (weather rec) as [s|e] eqn:Hw.
  2:{ rewrite (Herr e eq_refl) in H. discriminate H. }
  specialize (Hbad s eq_refl).
  destruct (as_num (rainfall s)) as [r|] eqn:Hr;
    [|destruct Hbad as (x & Hx); [auto|congruence]].
  destruct (as_num (wind_speed s)) as [v|] eqn:Hv;
    [|destruct Hbad as (x & Hx); [auto|congruence]].
  destruct (as_num (soil_temp s)) as [t|] eqn:Ht;
    [|destruct Hbad as (x & Hx); [auto|congruence]].
  destruct (as_num (soil_moisture s)) as [m|] eqn:Hm;
    [|destruct Hbad as (x & Hx); [auto|congruence]].
  exists s, r, v, t, m. auto.
Qed.

(** ** Reading the rendered text back *)

Lemma string_app_assoc (a b c : string) : ((a ++ b) ++ c = a ++ (b ++ c))%string.
Proof.
  induction a as [|x a IH]; cbn; [reflexivity|]. rewrite IH. reflexivity.
Qed.

Lemma no_newline_app (a b : string) :
  no_newline (a ++ b) = no_newline a && no_newline b.
Proof.
  induction a as [|x a IH]; cbn; [reflexivity|]. rewrite IH, andb_assoc. reflexivity.
Qed.

Lemma lines_not_nil (s : string) : lines s <> [].
Proof.
  destruct s as [|c s]; cbn; [discriminate|].
  destruct (is_newline c); [discriminate|]. destruct (lines s); discriminate.
Qed.

Lemma lines_newline (b : string) : lines (chr10 ++ b) = EmptyString :: lines b.
Proof. reflexivity. Qed.

Lemma lines_row (a b : string) :
  no_newline a = true -> lines (a ++ chr10 ++ b) = a :: lines b.
Proof.
  induction a as [|x a IH]; intro H; [reflexivity|].
  cbn in H. apply andb_true_iff in H. destruct H as (Hx & Ha).
  cbn [String.append lines]. apply negb_true_iff in Hx. rewrite Hx.
  rewrite (IH Ha). reflexivity.
Qed.

Lemma lines_last (a : string) : no_newline a = true -> lines a = [a].
Proof.
  induction a as [|x a IH]; intro H; [reflexivity|].
  cbn in H. apply andb_true_iff in H. destruct H as (Hx & Ha).
  cbn [lines]. apply negb_true_iff in Hx. rewrite Hx, (IH Ha). reflexivity.
Qed.

Lemma lines_row2 (p a b : string) :
  no_newline p = true -> no_newline a = true ->
  lines (p ++ a ++ chr10 ++ b) = (p ++ a)%string :: lines b.
Proof.
  intros Hp Ha. rewrite <- string_app_assoc. apply lines_row.
  rewrite no_newline_app, Hp, Ha. reflexivity.
Qed.

Lemma lines_section (p l : string) (ls : list string) (b : string) :
  no_newline p = true -> forallb no_newline (l :: ls) = true ->
  lines (p ++ join chr10 (l :: ls) ++ chr10 ++ b) = ((p ++ l)%string :: ls ++ lines b)%list.
Proof.
  revert p l. induction ls as [|l' ls IH]; intros p l Hp Hall.
  - cbn in Hall. rewrite andb_true_r in Hall. cbn [join app].
    apply lines_row2; assumption.
  - cbn [forallb] in Hall. apply andb_true_iff in Hall. destruct Hall as (Hl & Hrest).
    change (join chr10 (l :: l' :: ls)) with (l ++ chr10 ++ join chr10 (l' :: ls))%string.
    rewrite !string_app_assoc.
    rewrite (lines_row2 p l _ Hp Hl).
    specialize (IH EmptyString l' eq_refl Hrest). cbn [String.append] in IH.
    rewrite IH. reflexivity.
Qed.

Lemma no_newline_digits (d : Decimal.uint) :
  no_newline (NilEmpty.string_of_uint d) = true.
Proof.
  induction d; cbn; auto.
Qed.

Lemma no_newline_str_of_int (z : Z) : no_newline (str_of_int z) = true.
Proof.
  unfold str_of_int, NilZero.string_of_int, NilZero.string_of_uint.
  destruct (Z.to_int z) as [d|d]; destruct d; cbn; auto using no_newline_digits;
    apply no_newline_digits.
Qed.

Lemma lines_compile_message (land fallow st sm : string) (wa0 : string)
    (wa sa fa : list string) (fm : string) :
  no_newline land = true -> no_newline fallow = true ->
  no_newline st = true -> no_newline sm = true ->
  forallb no_newline (wa0 :: wa) = true ->
  forallb no_newline sa = true -> forallb no_newline fa = true ->
  no_newline fm = true ->
  lines (compile_message land fallow st sm (wa0 :: wa) sa fa fm)
  = message_lines land fallow st sm (wa0 :: wa) sa fa fm.
Proof.
  intros Hland Hfallow Hst Hsm Hwa Hsa Hfa Hfm.
  unfold compile_message, message_lines.
  rewrite lines_newline.
  rewrite (lines_row "    🌱 **FARMER ADVISORY** 🌱") by reflexivity.
  rewrite (lines_row "    ========================") by reflexivity.
  rewrite (lines_row "    **FIELD CONDITIONS:**") by reflexivity.
  assert (Hrow1 : no_newline
            ("    - Land: " ++ land ++ "m² | Fallow: " ++ fallow ++ " year(s)") = true).
  { rewrite !no_newline_app, Hland, Hfallow. reflexivity. }
  assert (Hrow2 : no_newline
            ("    - Soil Temp: " ++ st ++ "°C | Moisture: " ++ sm ++ "%") = true).
  { rewrite !no_newline_app, Hst, Hsm. reflexivity. }
  pose proof (lines_row _
    ("    - Soil Temp: " ++ st ++ "°C | Moisture: " ++ sm ++ "%" ++ chr10 ++
     "    " ++ chr10 ++ "    **WEATHER ALERTS:**" ++ chr10 ++
     "    " ++ join chr10 (wa0 :: wa) ++ chr10 ++
     "    " ++ chr10 ++ "    **SOIL CARE:**" ++ chr10 ++
     "    " ++ (match sa with
                | [] => "✅ Soil conditions normal"
                | _ => join chr10 sa
                end) ++ chr10 ++
     "    " ++ chr10 ++ "    **FERTILIZER PLAN:**" ++ chr10 ++
     "    " ++ (match fa with
                | [] => "✅ No fertilizers needed now"
                | _ => join chr10 fa
                end) ++ chr10 ++
     "    " ++ chr10 ++ "    **SPECIAL NOTES:**" ++ chr10 ++
     "    " ++ (if String.eqb fm "" then "No critical issues detected" else fm)
            ++ chr10 ++ "    ") Hrow1) as E1.
  rewrite !string_app_assoc in E1. rewrite E1. clear E1.
  pose proof (lines_row _
    ("    " ++ chr10 ++ "    **WEATHER ALERTS:**" ++ chr10 ++
     "    " ++ join chr10 (wa0 :: wa) ++ chr10 ++
     "    " ++ chr10 ++ "    **SOIL CARE:**" ++ chr10 ++
     "    " ++ (match sa with
                | [] => "✅ Soil conditions normal"
                | _ => join chr10 sa
                end) ++ chr10 ++
     "    " ++ chr10 ++ "    **FERTILIZER PLAN:**" ++ chr10 ++
     "    " ++ (match fa with
                | [] => "✅ No fertilizers needed now"
                | _ => join chr10 fa
                end) ++ chr10 ++
     "    " ++ chr10 ++ "    **SPECIAL NOTES:**" ++ chr10 ++
     "    " ++ (if String.eqb fm "" then "No critical issues detected" else fm)
            ++ chr10 ++ "    ") Hrow2) as E2.
  rewrite !string_app_assoc in E2. rewrite E2. clear E2.
  rewrite (lines_row "    ") by reflexivity.
  rewrite (lines_row "    **WEATHER ALERTS:**") by reflexivity.
  rewrite (lines_section "    " wa0 wa _ eq_refl Hwa).
  rewrite (lines_row "    ") by reflexivity.
  rewrite (lines_row "    **SOIL CARE:**") by reflexivity.
  assert (Hsection : forall (l : list string) (fallback rest : string),
            forallb no_newline l = true -> no_newline fallback = true ->
            lines ("    " ++ (match l with [] => fallback | _ => join chr10 l end)
                          ++ chr10 ++ rest)
            = (indent_first (match l with [] => [fallback] | _ => l end) ++ lines rest)%list).
  { intros l fallback rest Hl Hf. destruct l as [|x l].
    - cbn [indent_first app]. rewrite (lines_row2 "    " fallback rest eq_refl Hf).
      reflexivity.
    - rewrite (lines_section "    " x l rest eq_refl Hl). reflexivity. }
  rewrite (Hsection sa "✅ Soil conditions normal" _ Hsa eq_refl).
  rewrite (lines_row "    ") by reflexivity.
  rewrite (lines_row "    **FERTILIZER PLAN:**") by reflexivity.
  rewrite (Hsection fa "✅ No fertilizers needed now" _ Hfa eq_refl).
  rewrite (lines_row "    ") by reflexivity.
  rewrite (lines_row "    **SPECIAL NOTES:**") by reflexivity.
  assert (Hnote : no_newline
            (if String.eqb fm "" then "No critical issues detected" else fm) = true).
  { destruct (String.eqb fm ""); [reflexivity|exact Hfm]. }
  rewrite (lines_row2 "    " _ "    " eq_refl Hnote).
  reflexivity.
Qed.

(** ** The rainfall line of the advisory *)

Lemma rain_line_of_cases (x : float) :
  rain_line_of x = heavy_rain_line \/ rain_line_of x = delay_line \/
  rain_line_of x = dry_line.
Proof.
  destruct x as [|[|]|r]; cbn; auto.
  unfold rain_line. destruct (Qlt_le_dec 10 r); [|destruct (Qlt_le_dec 5 r)]; auto.
Qed.

Lemma wind_lines_of_cases (x : float) :
  wind_lines_of x = [] \/ wind_lines_of x = [strong_wind_line] \/
  wind_lines_of x = [breezy_line].
Proof.
  destruct x as [|[|]|v]; cbn; auto.
  unfold wind_lines. destruct (Qlt_le_dec 8 v); [|destruct (Qlt_le_dec 5 v)]; auto.
Qed.

Lemma soil_temp_lines_of_cases (x : float) :
  soil_temp_lines_of x = [] \/ soil_temp_lines_of x = [cold_soil_line] \/
  soil_temp_lines_of x = [hot_soil_line].
Proof.
  destruct x as [|[|]|t]; cbn; auto.
  unfold soil_temp_lines. destruct (Qlt_le_dec t 15); [|destruct (Qlt_le_dec 30 t)]; auto.
Qed.

Lemma soil_moisture_lines_of_cases (x : float) :
  soil_moisture_lines_of x = [] \/ soil_moisture_lines_of x = [waterlogged_line] \/
  soil_moisture_lines_of x = [dry_soil_line].
Proof.
  destruct x as [|[|]|m]; cbn; auto.
  unfold soil_moisture_lines. destruct (Qlt_le_dec 85 m); [|destruct (Qlt_le_dec m 40)]; auto.
Qed.

Ltac split_cases :=
  repeat match goal with
         | H : _ \/ _ |- _ => destruct H as [H|H]
         end.

(** The advice lists hold lines without a line feed, and outside the
    rainfall entry none of their lines is a rainfall line. *)
Lemma weather_section_rows (r v : float) :
  forallb no_newline (rain_line_of r :: wind_lines_of v) = true /\
  filter is_rain_row (indent_first (rain_line_of r :: wind_lines_of v))
  = [("    " ++ rain_line_of r)%string].
Proof.
  pose proof (rain_line_of_cases r) as Hr. pose proof (wind_lines_of_cases v) as Hv.
  split_cases; rewrite Hr, Hv; split; vm_compute; reflexivity.
Qed.

Lemma soil_section_rows (t m : float) :
  forallb no_newline (soil_temp_lines_of t ++ soil_moisture_lines_of m) = true /\
  filter is_rain_row
    (indent_first (match (soil_temp_lines_of t ++ soil_moisture_lines_of m)%list with
                   | [] => ["✅ Soil conditions normal"]
                   | _ => (soil_temp_lines_of t ++ soil_moisture_lines_of m)%list
                   end)) = [].
Proof.
  pose proof (soil_temp_lines_of_cases t) as Ht.
  pose proof (soil_moisture_lines_of_cases m) as Hm.
  split_cases; rewrite Ht, Hm; split; vm_compute; reflexivity.
Qed.

Lemma plan_section_rows (fertilizers : list string) :
  forallb no_newline (fert_advice_of fertilizers) = true /\
  filter is_rain_row
    (indent_first (match fert_advice_of fertilizers with
                   | [] => ["✅ No fertilizers needed now"]
                   | _ => fert_advice_of fertilizers
                   end)) = [].
Proof.
  unfold fert_advice_of.
  destruct (contains "Urea" fertilizers), (contains "Single Super Phosphate" fertilizers),
    (contains "Muriate of Potash" fertilizers); split; vm_compute; reflexivity.
Qed.

Lemma notes_rows (fallow : Z) :
  no_newline (fallow_msg_of fallow) = true /\
  filter is_rain_row
    [ "    "; "    **SPECIAL NOTES:**";
      ("    " ++ (if String.eqb (fallow_msg_of fallow) ""
                  then "No critical issues detected" else fallow_msg_of fallow))%string;
      "    " ] = [].
Proof.
  unfold fallow_msg_of. destruct (fallow >=? 2); split; vm_compute; reflexivity.
Qed.

Lemma rain_rows_of_message (land fallow_years st sm : string) (r v t m : float)
    (fertilizers : list string) (fallow : Z) :
  filter is_rain_row
    (message_lines land fallow_years st sm
       (rain_line_of r :: wind_lines_of v)
       (soil_temp_lines_of t ++ soil_moisture_lines_of m)%list
       (fert_advice_of fertilizers) (fallow_msg_of fallow))
  = [("    " ++ rain_line_of r)%string].
Proof.
  unfold message_lines. cbv zeta. rewrite !filter_app.
  rewrite (proj2 (weather_section_rows r v)), (proj2 (soil_section_rows t m)),
    (proj2 (plan_section_rows fertilizers)), (proj2 (notes_rows fallow)).
  reflexivity.
Qed.

(** C9. For every ok snapshot whose rainfall reading is a number, the
    rainfall step of the renderer appends exactly one line: the heavy-rain
    warning when the reading is above 10, else the delay-fertilizer notice
    when it is above 5, else the dry-conditions notice (a NaN reading is
    above nothing); the three lines are distinct, so a reading above 10 never
    gives the dry-conditions line.  When the other rendered readings are
    numbers too the message is rendered, and in the rendered text, split at
    its line feeds, the line after the weather-alerts header is that rainfall
    line and no other line of the text is a rainfall line. *)
Theorem rainfall_line_exclusive (str_num : pyval -> string)
    (rec : recommendation) (s : snapshot) (x : num) :
  weather rec = WeatherOk s ->
  as_num (rainfall s) = Some x ->
  (forall acc, rain_advice (weather rec) acc = Ok (append acc (rain_line_of (value x)))) /\
  (forall r, value x = FFin r ->
     rain_line_of (value x) = rain_line r /\
     ((10 < r)%Q -> rain_line r = heavy_rain_line /\ rain_line r <> dry_line) /\
     ((5 < r)%Q -> (r <= 10)%Q -> rain_line r = delay_line) /\
     ((r <= 5)%Q -> rain_line r = dry_line)) /\
  (value x = FInf false -> rain_line_of (value x) = heavy_rain_line) /\
  (value x = FInf true \/ value x = FNaN -> rain_line_of (value x) = dry_line) /\
  (forall v t m,
     as_num (wind_speed s) = Some v ->
     as_num (soil_temp s) = Some t ->
     as_num (soil_moisture s) = Some m ->
     exists msg, generate_farmer_message str_num rec = Ok msg) /\
  (forall msg,
     generate_farmer_message str_num rec = Ok msg ->
     (forall y, no_newline (str_num y) = true) ->
     (exists before after,
        lines msg = (before ++ "    **WEATHER ALERTS:**"
                            :: ("    " ++ rain_line_of (value x))%string
                            :: after)%list) /\
     filter is_rain_row (lines msg) = [("    " ++ rain_line_of (value x))%string]).
Proof.
  intros Hw Hx. rewrite Hw.
  split; [intro acc; apply rain_advice_value; exact Hx|].
  split.
  { intros r Hr. rewrite Hr. split; [reflexivity|].
    destruct (rain_line_cases r) as (Hheavy & Hdelay & Hdry).
    split; [|split; assumption].
    intro H10. split; [auto|]. rewrite (Hheavy H10). apply rain_lines_distinct. }
  split; [intros ->; reflexivity|].
  split; [intros [-> | ->]; reflexivity|].
  split.
  { intros v t m Hv Ht Hm. eexists.
    exact (render_value str_num rec s x v t m Hw Hx Hv Ht Hm). }
  intros msg Hmsg Hstr.
  destruct (render_inv str_num rec msg Hmsg)
    as (s' & x' & v & t & m & Hw' & Hx' & Hv & Ht & Hm).
  rewrite Hw in Hw'. injection Hw' as <-.
  rewrite Hx in Hx'. injection Hx' as <-.
  rewrite (render_value str_num rec s x v t m Hw Hx Hv Ht Hm) in Hmsg.
  injection Hmsg as <-.
  rewrite lines_compile_message;
    try apply Hstr; try apply no_newline_str_of_int;
    try apply weather_section_rows; try apply soil_section_rows;
    try apply plan_section_rows; try apply notes_rows.
  split.
  - unfold message_lines. cbv zeta. cbn [indent_first].
    eexists [_; _; _; _; _; _; _], _. reflexivity.
  - apply rain_rows_of_message.
Qed.

Lemma rainfall_line_exclusive_witness :
  (forall acc, rain_advice (WeatherOk rainy) acc = Ok (append acc heavy_rain_line)) /\
  (forall r, value 12 = FFin r ->
     heavy_rain_line = rain_line r /\
     ((10 < r)%Q -> rain_line r = heavy_rain_line /\ rain_line r <> dry_line) /\
     ((5 < r)%Q -> (r <= 10)%Q -> rain_line r = delay_line) /\
     ((r <= 5)%Q -> rain_line r = dry_line)) /\
  (value 12 = FInf false -> heavy_rain_line = heavy_rain_line) /\
  (value 12 = FInf true \/ value 12 = FNaN -> heavy_rain_line = dry_line) /\
  (forall v t m,
     as_num (wind_speed rainy) = Some v ->
     as_num (soil_temp rainy) = Some t ->
     as_num (soil_moisture rainy) = Some m ->
     exists msg, generate_farmer_message plain_str rainy_day = Ok msg) /\
  (forall msg,
     generate_farmer_message plain_str rainy_day = Ok msg ->
     (forall y, no_newline (plain_str y) = true) ->
     (exists before after,
        lines msg = (before ++ "    **WEATHER ALERTS:**"
                            :: ("    " ++ heavy_rain_line)%string
                            :: after)%list) /\
     filter is_rain_row (lines msg) = [("    " ++ heavy_rain_line)%string]).
Proof.
  apply (rainfall_line_exclusive plain_str rainy_day rainy 12); reflexivity.
Defined.

(** The text rendered for a rainy day with a strong wind, read back line by
    line: one rainfall line, right after the header. *)
Example rainfall_rows_rendered :
  exists msg,
    generate_farmer_message plain_str rainy_day = Ok msg /\
    filter is_rain_row (lines msg) = [("    " ++ heavy_rain_line)%string] /\
    nth_error (lines msg) 7 = Some "    **WEATHER ALERTS:**" /\
    nth_error (lines msg) 8 = Some ("    " ++ heavy_rain_line)%string /\
    nth_error (lines msg) 9 = Some strong_wind_line.
Proof.
  eexists. split; [reflexivity|]. vm_compute. auto.
Qed.

(** Rainfall 12, 7, 5 and 10 millimetres as ints, 10.5 as a float, and the
    non-finite floats. *)
Example rainfall_lines_rendered :
  map (fun r => rain_advice
                  (WeatherOk {| temperature := PNum 25; rainfall := PNum r; humidity := PNum 60;
                                wind_speed := PNum 2; soil_temp := PNum 23;
                                soil_moisture := PNum 50 |}) [])
      [NInt 12; NInt 7; NInt 5; NInt 10; NFloat (FFin (21 # 2));
       NFloat (FInf false); NFloat (FInf true); NFloat FNaN]
  = [Ok [heavy_rain_line]; Ok [delay_line]; Ok [dry_line]; Ok [delay_line];
     Ok [heavy_rain_line]; Ok [heavy_rain_line]; Ok [dry_line]; Ok [dry_line]].
Proof. reflexivity. Qed.

(** ** The rest of the rule table *)

(** Wind: above 8 the no-spraying warning, else above 5 the spray-carefully
    notice, else nothing is appended. *)
Theorem wind_line_rule (s : snapshot) (v : Q) (acc : list string) :
  as_number (wind_speed s) = Some v ->
  wind_advice (WeatherOk s) acc = Ok (acc ++ wind_lines v)%list /\
  ((8 < v)%Q -> wind_lines v = [strong_wind_line]) /\
  ((5 < v)%Q -> (v <= 8)%Q -> wind_lines v = [breezy_line]) /\
  ((v <= 5)%Q -> wind_lines v = []).
Proof.
  intro Hv. split.
  - apply wind_advice_lines. exact Hv.
  - unfold wind_lines.
    destruct (Qlt_le_dec 8 v), (Qlt_le_dec 5 v); repeat split; intros; by_order.
Qed.

Lemma wind_line_rule_witness :
  wind_advice default_weather [dry_line] = Ok ([dry_line] ++ wind_lines 2)%list /\
  ((8 < 2)%Q -> wind_lines 2 = [strong_wind_line]) /\
  ((5 < 2)%Q -> (2 <= 8)%Q -> wind_lines 2 = [breezy_line]) /\
  ((2 <= 5)%Q -> wind_lines 2 = []).
Proof.
  apply (wind_line_rule
           {| temperature := PNum 25; rainfall := PNum 0; humidity := PNum 60;
              wind_speed := PNum 2; soil_temp := PNum 23; soil_moisture := PNum 50 |}
           2%Q [dry_line]).
  reflexivity.
Defined.

(** Soil: below 15 degrees the cold-soil notice, else above 30 the hot-soil
    notice; then above 85 percent the waterlogged notice, else below 40 the
    dry-soil notice.  The list is empty, so that the normal-conditions line
    is shown, exactly when 15 <= t <= 30 and 40 <= m <= 85. *)
Theorem soil_advice_rule (s : snapshot) (t m : Q) :
  as_number (soil_temp s) = Some t ->
  as_number (soil_moisture s) = Some m ->
  soil_advice_of (WeatherOk s) = Ok (soil_temp_lines t ++ soil_moisture_lines m)%list /\
  ((t < 15)%Q -> soil_temp_lines t = [cold_soil_line]) /\
  ((30 < t)%Q -> soil_temp_lines t = [hot_soil_line]) /\
  ((85 < m)%Q -> soil_moisture_lines m = [waterlogged_line]) /\
  ((m < 40)%Q -> soil_moisture_lines m = [dry_soil_line]) /\
  ((soil_temp_lines t ++ soil_moisture_lines m)%list = [] <->
   (15 <= t)%Q /\ (t <= 30)%Q /\ (40 <= m)%Q /\ (m <= 85)%Q).
Proof.
  intros Ht Hm. split.
  - apply soil_advice_lines; assumption.
  - unfold soil_temp_lines, soil_moisture_lines.
    destruct (Qlt_le_dec t 15), (Qlt_le_dec 30 t), (Qlt_le_dec 85 m), (Qlt_le_dec m 40);
      repeat split; intros; try by_order; try discriminate;
      repeat match goal with H : _ /\ _ |- _ => destruct H end; try lra.
Qed.

Lemma soil_advice_rule_witness :
  soil_advice_of default_weather = Ok (soil_temp_lines 23 ++ soil_moisture_lines 50)%list /\
  ((23 < 15)%Q -> soil_temp_lines 23 = [cold_soil_line]) /\
  ((30 < 23)%Q -> soil_temp_lines 23 = [hot_soil_line]) /\
  ((85 < 50)%Q -> soil_moisture_lines 50 = [waterlogged_line]) /\
  ((50 < 40)%Q -> soil_moisture_lines 50 = [dry_soil_line]) /\
  ((soil_temp_lines 23 ++ soil_moisture_lines 50)%list = [] <->
   (15 <= 23)%Q /\ (23 <= 30)%Q /\ (40 <= 50)%Q /\ (50 <= 85)%Q).
Proof.
  apply (soil_advice_rule
           {| temperature := PNum 25; rainfall := PNum 0; humidity := PNum 60;
              wind_speed := PNum 2; soil_temp := PNum 23; soil_moisture := PNum 50 |}
           23%Q 50%Q); reflexivity.
Defined.

(** ** Fertilizer plan *)

Lemma contains_In (x : string) (xs : list string) : contains x xs = true <-> In x xs.
Proof.
  unfold contains. rewrite existsb_exists. split.
  - intros (y & Hy & E). apply String.eqb_eq in E. subst y. exact Hy.
  - intro H. exists x. split; [exact H|apply String.eqb_refl].
Qed.

Lemma contains_ext (x : string) (xs ys : list string) :
  (forall y, In y xs <-> In y ys) -> contains x xs = contains x ys.
Proof.
  intro H. destruct (contains x xs) eqn:E1, (contains x ys) eqn:E2; try reflexivity.
  - apply contains_In, H, contains_In in E1. congruence.
  - apply contains_In, H, contains_In in E2. congruence.
Qed.

(** The plan section tests membership only: its lines come in the order
    Urea, SSP, MOP whatever the order or multiplicity of the names in the
    list, and names it does not know are ignored.  For the lists the engine
    builds this is one line per fertilizer, in list order. *)
Theorem fertilizer_plan_lines :
  (forall fertilizers,
     fert_advice_of fertilizers =
     ((if contains "Urea" fertilizers then [urea_line] else []) ++
      (if contains "Single Super Phosphate" fertilizers then [ssp_line] else []) ++
      (if contains "Muriate of Potash" fertilizers then [mop_line] else []))%list) /\
  (forall xs ys, (forall y, In y xs <-> In y ys) -> fert_advice_of xs = fert_advice_of ys) /\
  (forall r, fert_advice_of (needed r) = map plan_line (needed r)).
Proof.
  split; [|split].
  - intro l. unfold fert_advice_of, append.
    destruct (contains "Urea" l), (contains "Single Super Phosphate" l),
      (contains "Muriate of Potash" l); reflexivity.
  - intros xs ys H. unfold fert_advice_of.
    rewrite (contains_ext "Urea" xs ys H),
      (contains_ext "Single Super Phosphate" xs ys H),
      (contains_ext "Muriate of Potash" xs ys H).
    reflexivity.
  - intro r. unfold needed.
    destruct (Avail_N r <? 280), (Avail_P r <? 10), (Exch_K r <? 110); reflexivity.
Qed.

Lemma fertilizer_plan_lines_witness :
  fert_advice_of ["Muriate of Potash"; "Urea"; "Urea"] =
  fert_advice_of ["Urea"; "Muriate of Potash"].
Proof.
  apply (proj1 (proj2 fertilizer_plan_lines)
           ["Muriate of Potash"; "Urea"; "Urea"] ["Urea"; "Muriate of Potash"]).
  intro y. simpl. tauto.
Defined.

(** A reversed list with a repeated and an unknown name still gives the
    plan in the fixed order. *)
Example fertilizer_plan_fixed_order :
  fert_advice_of ["Muriate of Potash"; "Compost"; "Urea"; "Urea"] = [urea_line; mop_line].
Proof. reflexivity. Qed.

(** ** What the renderer returns and when it raises *)

Lemma catchable_gt v n : catchable (gt v n).
Proof.
  unfold gt. destruct (as_num v); simpl; auto.
Qed.

Lemma catchable_lt v n : catchable (lt v n).
Proof.
  unfold lt. destruct (as_num v); simpl; auto.
Qed.

Lemma catchable_weather_item w k : catchable (weather_item w k).
Proof.
  destruct w as [s|m]; unfold weather_item;
    repeat match goal with
           | |- context [if ?c then _ else _] => destruct c
           end; simpl; auto.
Qed.

#[local] Hint Resolve catchable_gt catchable_lt catchable_weather_item : py.

Lemma catchable_if {A} (c : bool) (x y : result A) :
  catchable x -> catchable y -> catchable (if c then x else y).
Proof.
  destruct c; auto.
Qed.

Ltac catchable_steps :=
  repeat first
    [ apply catchable_bind; [|intro]
    | apply catchable_if
    | solve [auto with py]
    | exact I ].

Lemma catchable_generate_farmer_message (str_num : pyval -> string) (r : recommendation) :
  catchable (generate_farmer_message str_num r).
Proof.
  unfold generate_farmer_message, rain_advice, wind_advice, soil_advice_of.
  catchable_steps.
Qed.

(** The whole message for an ok snapshot whose four rendered readings are
    numbers: the template filled with the echoed inputs, the rainfall line
    followed by the wind lines, the soil lines, the plan lines and the fallow
    note. *)
Theorem farmer_message_of_numeric_snapshot (str_num : pyval -> string)
    (rec : recommendation) (s : snapshot) (r v t m : Q) :
  weather rec = WeatherOk s ->
  as_number (rainfall s) = Some r ->
  as_number (wind_speed s) = Some v ->
  as_number (soil_temp s) = Some t ->
  as_number (soil_moisture s) = Some m ->
  generate_farmer_message str_num rec =
  Ok (compile_message
        (str_num (PNum (land_size_m2 rec))) (str_of_int (fallow_years rec))
        (str_num (soil_temp s)) (str_num (soil_moisture s))
        (rain_line r :: wind_lines v)
        (soil_temp_lines t ++ soil_moisture_lines m)%list
        (fert_advice_of (fertilizers rec))
        (fallow_msg_of (fallow_years rec))).
Proof.
  intros Hw Hr Hv Ht Hm. apply render_numeric; assumption.
Qed.

Lemma farmer_message_of_numeric_snapshot_witness :
  generate_farmer_message plain_str
    {| fertilizers := ["Urea"]; land_size_m2 := FFin 100; fallow_years := 1;
       weather := WeatherOk {| temperature := PNum 12; rainfall := PNum 7;
                               humidity := PNum 80; wind_speed := PNum 9;
                               soil_temp := PNum 10; soil_moisture := PNum 90 |} |} =
  Ok (compile_message "0" "1" "0" "0"
        [delay_line; strong_wind_line] [cold_soil_line; waterlogged_line]
        [urea_line] "").
Proof.
  apply (farmer_message_of_numeric_snapshot plain_str
           {| fertilizers := ["Urea"]; land_size_m2 := FFin 100; fallow_years := 1;
              weather := WeatherOk {| temperature := PNum 12; rainfall := PNum 7;
                                      humidity := PNum 80; wind_speed := PNum 9;
                                      soil_temp := PNum 10; soil_moisture := PNum 90 |} |}
           {| temperature := PNum 12; rainfall := PNum 7; humidity := PNum 80;
              wind_speed := PNum 9; soil_temp := PNum 10; soil_moisture := PNum 90 |}
           7%Q 9%Q 10%Q 90%Q); reflexivity.
Defined.

(** The renderer does not validate what it reads.  On an error dict it
    raises KeyError for the missing rainfall key; on an ok dict in which one
    of rainfall, wind speed, soil temperature or soil moisture is not a
    number it raises TypeError at the first comparison that meets it. *)
Theorem farmer_message_raises (str_num : pyval -> string) (rec : recommendation) :
  (forall m, weather rec = WeatherError m ->
     generate_farmer_message str_num rec = Raise (KeyError "rainfall")) /\
  (forall s, weather rec = WeatherOk s ->
     as_num (rainfall s) = None \/ as_num (wind_speed s) = None \/
     as_num (soil_temp s) = None \/ as_num (soil_moisture s) = None ->
     exists msg, generate_farmer_message str_num rec = Raise (TypeError msg)).
Proof.
  destruct (render_raises str_num rec) as (Herr & Hbad). split.
  - exact Herr.
  - intros s Hw H. exact (Hbad s Hw H).
Qed.

Lemma farmer_message_raises_witness :
  generate_farmer_message plain_str
    {| fertilizers := []; land_size_m2 := FFin 100; fallow_years := 1;
       weather := WeatherError "unreachable" |} = Raise (KeyError "rainfall") /\
  exists msg,
    generate_farmer_message plain_str
      {| fertilizers := []; land_size_m2 := FFin 100; fallow_years := 1;
         weather := WeatherOk {| temperature := PNum 30; rainfall := PNum 0;
                                 humidity := PNum 50; wind_speed := PStr "calm";
                                 soil_temp := PNum 28; soil_moisture := PNum 60 |} |}
    = Raise (TypeError msg).
Proof.
  split.
  - apply (proj1 (farmer_message_raises plain_str
                    {| fertilizers := []; land_size_m2 := FFin 100; fallow_years := 1;
                       weather := WeatherError "unreachable" |}) "unreachable").
    reflexivity.
  - apply (proj2 (farmer_message_raises plain_str
                    {| fertilizers := []; land_size_m2 := FFin 100; fallow_years := 1;
                       weather := WeatherOk {| temperature := PNum 30; rainfall := PNum 0;
                                               humidity := PNum 50; wind_speed := PStr "calm";
                                               soil_temp := PNum 28;
                                               soil_moisture := PNum 60 |} |})
             {| temperature := PNum 30; rainfall := PNum 0; humidity := PNum 50;
                wind_speed := PStr "calm"; soil_temp := PNum 28; soil_moisture := PNum 60 |}).
    + reflexivity.
    + right. left. reflexivity.
Defined.

(** ** Responses of the route *)

Lemma fertilizer_recommendation_returns (e : env) soil_type crop_type land_size fallow
    use_my_location lat lon manual_location (w : world) :
  exists out w',
    fertilizer_recommendation e soil_type crop_type land_size fallow
      use_my_location lat lon manual_location w = (Ok out, w').
Proof.
  rewrite fertilizer_recommendation_unfold.
  destruct (select SAMPLE_DATA soil_type crop_type) as [|row rest]; [eauto|].
  destruct (resolve_weather_returns e use_my_location lat lon manual_location w)
    as (v & w' & ->).
  destruct v; eauto.
Qed.

Lemma api_recommend_rendered (str_num : pyval -> string) (e : env)
    soil_type crop_type land_size fallow use_my_location lat lon manual_location
    (w w' : world) (r : recommendation) :
  fertilizer_recommendation e soil_type crop_type land_size fallow
    use_my_location lat lon manual_location w = (Ok (Recommendation r), w') ->
  api_recommend str_num e soil_type crop_type land_size fallow
    use_my_location lat lon manual_location w =
  (match generate_farmer_message str_num r with
   | Ok msg => respond (Ok {| body := r; farmer_message := msg |})
   | Raise ex => {| status_code := 500; content := JsonDetail (str_exn ex) |}
   end, w').
Proof.
  intro H. unfold api_recommend, get_recommendation, mtry, mbind, lift, mret, mraise.
  rewrite H.
  pose proof (catchable_generate_farmer_message str_num r) as C.
  destruct (generate_farmer_message str_num r) as [msg|ex]; cbn in *; [reflexivity|].
  rewrite C. reflexivity.
Qed.

Lemma api_recommend_error (str_num : pyval -> string) (e : env)
    soil_type crop_type land_size fallow use_my_location lat lon manual_location
    (w w' : world) (msg : string) :
  fertilizer_recommendation e soil_type crop_type land_size fallow
    use_my_location lat lon manual_location w = (Ok (ErrorDict msg), w') ->
  api_recommend str_num e soil_type crop_type land_size fallow
    use_my_location lat lon manual_location w
  = ({| status_code := 500; content := JsonDetail (str_exn (HTTPException 400 msg)) |}, w').
Proof.
  intro H. unfold api_recommend, get_recommendation, mtry, mbind.
  rewrite H. reflexivity.
Qed.

Lemma api_recommend_cases (str_num : pyval -> string) (e : env)
    soil_type crop_type land_size fallow use_my_location lat lon manual_location
    (w : world) :
  let response :=
    fst (api_recommend str_num e soil_type crop_type land_size fallow
           use_my_location lat lon manual_location w) in
  (status_code response = 200 /\
   exists a, content response = JsonAdvisory a /\ advisory_compliant a = true) \/
  (status_code response = 500 /\ exists d, content response = JsonDetail d) \/
  (status_code response = 500 /\ content response = InternalServerError).
Proof.
  destruct (fertilizer_recommendation_returns e soil_type crop_type land_size fallow
              use_my_location lat lon manual_location w) as (out & w' & H).
  destruct out as [msg|r].
  - rewrite (api_recommend_error str_num _ _ _ _ _ _ _ _ _ _ _ _ H).
    right. left. cbn. eauto.
  - rewrite (api_recommend_rendered str_num _ _ _ _ _ _ _ _ _ _ _ _ H).
    destruct (generate_farmer_message str_num r) as [msg|ex]; cbn [fst].
    + unfold respond.
      destruct (advisory_compliant {| body := r; farmer_message := msg |}) eqn:E; cbn.
      * left. eauto.
      * right. right. auto.
    + right. left. cbn. eauto.
Qed.

(** Whatever the query, the process state and the provider, the route
    answers 200 with an advisory that holds no NaN and no infinity, 422
    without touching the process state, 500 with a JSON detail, or the
    server's plain 500.  It never answers 400. *)
Theorem route_never_answers_400 (str_num : pyval -> string) (e : env)
    (q : query) (w : world) :
  let response := fst (route str_num e q w) in
  ((status_code response = 200 /\
    exists a, content response = JsonAdvisory a /\ advisory_compliant a = true) \/
   (status_code response = 422 /\ content response = ValidationErrors /\
    validate q = None /\ snd (route str_num e q w) = w) \/
   (status_code response = 500 /\ exists d, content response = JsonDetail d) \/
   (status_code response = 500 /\ content response = InternalServerError)) /\
  status_code response <> 400.
Proof.
  assert (H : let response := fst (route str_num e q w) in
              (status_code response = 200 /\
               exists a, content response = JsonAdvisory a /\ advisory_compliant a = true) \/
              (status_code response = 422 /\ content response = ValidationErrors /\
               validate q = None /\ snd (route str_num e q w) = w) \/
              (status_code response = 500 /\ exists d, content response = JsonDetail d) \/
              (status_code response = 500 /\ content response = InternalServerError)).
  { unfold route. destruct (validate q) as [r|].
    - destruct (api_recommend_cases str_num e (r_soil_type r) (r_crop_type r)
                  (r_land_size r) (r_fallow_years r) (r_use_my_location r)
                  (r_lat r) (r_lon r) (r_manual_location r) w) as [H|[H|H]]; auto.
    - right. left. cbn. auto. }
  cbv zeta in *. split; [exact H|].
  destruct H as [(H & _)|[(H & _)|[(H & _)|(H & _)]]]; rewrite H; discriminate.
Qed.



(** When the engine returns a recommendation the answer is decided by the
    renderer and by the serialiser: 500 with the text of the exception when
    the renderer raises; when it returns, 200 with the recommendation and its
    message if they hold no NaN and no infinity, and the server's plain 500
    if they do.  The process state is the one the engine left. *)
Theorem route_follows_renderer (str_num : pyval -> string) (e : env)
    (q : query) (req : request) (w w' : world) (r : recommendation) :
  validate q = Some req ->
  fertilizer_recommendation e (r_soil_type req) (r_crop_type req) (r_land_size req)
    (r_fallow_years req) (r_use_my_location req) (r_lat req) (r_lon req)
    (r_manual_location req) w = (Ok (Recommendation r), w') ->
  (forall msg, generate_farmer_message str_num r = Ok msg ->
     advisory_compliant {| body := r; farmer_message := msg |} = true ->
     route str_num e q w =
     ({| status_code := 200;
         content := JsonAdvisory {| body := r; farmer_message := msg |} |}, w')) /\
  (forall msg, generate_farmer_message str_num r = Ok msg ->
     advisory_compliant {| body := r; farmer_message := msg |} = false ->
     route str_num e q w =
     ({| status_code := 500; content := InternalServerError |}, w')) /\
  (forall ex, generate_farmer_message str_num r = Raise ex ->
     route str_num e q w =
     ({| status_code := 500; content := JsonDetail (str_exn ex) |}, w')).
Proof.
  intros Hq H. unfold route. rewrite Hq.
  rewrite (api_recommend_rendered str_num _ _ _ _ _ _ _ _ _ _ _ _ H).
  repeat split; intros x Hx; rewrite Hx; try reflexivity;
    intro Hc; unfold respond; rewrite Hc; reflexivity.
Qed.

(** A provider that reports the wind speed as text: the adapter accepts the
    payload, the renderer raises on it, and the request ends as a 500 with
    the interpreter's message. *)
Lemma route_follows_renderer_witness :
  route plain_str (online odd_wind) delhi_query initial_world =
  ({| status_code := 500;
      content := JsonDetail "'>' not supported between instances of 'str' and 'int'" |},
   snd (fertilizer_recommendation (online odd_wind) "Red" "Rice" (FFin 100) 1
          false None None (Some "Delhi") initial_world)).
Proof.
  refine (proj2 (proj2 (route_follows_renderer plain_str (online odd_wind) delhi_query
                          _ initial_world _ _ eq_refl eq_refl)) _ eq_refl).
Defined.

(** A provider that reports the temperature 1e999, which the JSON decoder
    reads as infinity: nothing raises inside the handler, and the request
    ends as the server's plain 500. *)
Example infinite_temperature_answers_plain_500 :
  fst (route plain_str
         (online (fun _ _ => Json (sample_payload (FInf false) 50)))
         delhi_query initial_world)
  = {| status_code := 500; content := InternalServerError |}.
Proof. vm_compute. reflexivity. Qed.

(** A query without [land_size] is answered 422. *)
Example missing_land_size_answers_422 :
  route plain_str offline
    {| q_soil_type := Parsed "Red"; q_crop_type := Parsed "Rice";
       q_land_size := Absent; q_fallow_years := Parsed 1;
       q_use_my_location := Absent; q_lat := Absent; q_lon := Absent;
       q_manual_location := Absent |} initial_world
  = ({| status_code := 422; content := ValidationErrors |}, initial_world).
Proof. reflexivity. Qed.

(** ** The cache of the adapter *)

Lemma feq_refl (x : float) : x <> FNaN -> feq x x = true.
Proof.
  destruct x as [|b|q]; cbn; intro H.
  - contradiction.
  - apply Bool.eqb_reflx.
  - apply Qeq_bool_refl.
Qed.

Lemma location_eqb_refl (loc : location) :
  holds_nan loc = false -> location_eqb loc loc = true.
Proof.
  destruct loc as [[la|] [lo|]|[n|]]; cbn; intro H;
    rewrite ?String.eqb_refl; try reflexivity;
    repeat match goal with
           | x : float |- _ => destruct x as [|?|?]; cbn in *; try discriminate H;
                               rewrite ?Bool.eqb_reflx, ?Qeq_bool_refl
           end; reflexivity.
Qed.

Lemma location_eqb_nan (loc loc' : location) :
  holds_nan loc = true -> location_eqb loc' loc = false.
Proof.
  destruct loc as [[[|?|?]|] [[|?|?]|]|n]; cbn; try discriminate; intros _;
    destruct loc' as [[[|?|?]|] [[|?|?]|]|n']; cbn; rewrite ?andb_false_r; reflexivity.
Qed.

Lemma cache_find_nan (loc : location) c :
  holds_nan loc = true -> cache_find loc c = None.
Proof.
  intro H. induction c as [|[k v] c IH]; cbn; [reflexivity|].
  rewrite (location_eqb_nan loc k H). exact IH.
Qed.

Lemma cache_find_head (loc : location) (v : weather_dict) c :
  holds_nan loc = false -> cache_find loc ((loc, v) :: c) = Some v.
Proof.
  intro H. cbn. rewrite (location_eqb_refl loc H). reflexivity.
Qed.

Lemma cache_remove_length (k : location) c :
  (length (cache_remove k c) <= length c)%nat.
Proof.
  unfold cache_remove. apply filter_length_le.
Qed.

Lemma cache_remove_hit (k : location) c (v : weather_dict) :
  cache_find k c = Some v -> (length (cache_remove k c) < length c)%nat.
Proof.
  induction c as [|[k' v'] c IH]; cbn; [discriminate|].
  destruct (location_eqb k' k) eqn:E; cbn.
  - intros _. pose proof (cache_remove_length k c). unfold cache_remove in *. lia.
  - intro H. specialize (IH H). unfold cache_remove in *. lia.
Qed.

Lemma get_weather_data_again (e e' : env) (loc : location) (w w' : world) (v : weather_dict) :
  holds_nan loc = false ->
  get_weather_data e loc w = (Ok v, w') ->
  get_weather_data e' loc w' =
  (Ok v, {| cache := (loc, v) :: cache_remove loc (cache w'); calls := calls w' |}).
Proof.
  intros Hnan H. apply get_weather_data_hit.
  unfold get_weather_data in H.
  destruct (cache_find loc (cache w)) as [v0|].
  - injection H as <- <-. apply cache_find_head. exact Hnan.
  - rewrite get_weather_data_wrapped_run in H. injection H as <- <-.
    cbn. rewrite (location_eqb_refl loc Hnan). reflexivity.
Qed.

(** Memoization without expiry.  Once the adapter has answered for a
    location whose coordinates are not NaN, asking again for that location
    gives the same dict and makes no outbound call, even if the provider or
    the credential have changed since; error dicts are remembered like any
    other. *)
Theorem get_weather_data_memoized (e e' : env) (loc : location) (w w' : world)
    (v : weather_dict) :
  holds_nan loc = false ->
  get_weather_data e loc w = (Ok v, w') ->
  exists w'',
    get_weather_data e' loc w' = (Ok v, w'') /\
    calls w'' = calls w' /\
    cache_find loc (cache w'') = Some v.
Proof.
  intros Hnan H. rewrite (get_weather_data_again e e' loc w w' v Hnan H).
  eexists. split; [reflexivity|]. split; [reflexivity|]. apply cache_find_head. exact Hnan.
Qed.

Lemma get_weather_data_memoized_witness :
  exists w'',
    get_weather_data (online fair_weather) (Named (Some "Delhi"))
      {| cache := [(Named (Some "Delhi"), WeatherError "unreachable")];
         calls := [ByName (Some "Delhi") None] |}
    = (Ok (WeatherError "unreachable"), w'') /\
    calls w'' = [ByName (Some "Delhi") None] /\
    cache_find (Named (Some "Delhi")) (cache w'') = Some (WeatherError "unreachable").
Proof.
  apply (get_weather_data_memoized offline (online fair_weather) (Named (Some "Delhi"))
           initial_world
           {| cache := [(Named (Some "Delhi"), WeatherError "unreachable")];
              calls := [ByName (Some "Delhi") None] |}
           (WeatherError "unreachable")); reflexivity.
Defined.

(** A coordinate pair that holds NaN equals no cached key, so a lookup for
    it is never served from the cache: every call for it goes out to the
    provider, whatever the cache holds. *)
Theorem nan_key_is_never_cached (e : env) (loc : location) (w : world) :
  holds_nan loc = true ->
  exists v,
    get_weather_data e loc w =
    (Ok v, {| cache := firstn maxsize ((loc, v) :: cache w);
              calls := append (calls w) (url_of e loc) |}).
Proof.
  intro H. apply get_weather_data_miss. apply cache_find_nan. exact H.
Qed.

Lemma nan_key_is_never_cached_witness :
  exists v,
    get_weather_data (online fair_weather) (Coords (Some FNaN) (Some (FFin 77)))
      {| cache := [(Coords (Some FNaN) (Some (FFin 77)), WeatherError "unreachable")];
         calls := [] |} =
    (Ok v, {| cache := firstn maxsize
                         [(Coords (Some FNaN) (Some (FFin 77)), v);
                          (Coords (Some FNaN) (Some (FFin 77)), WeatherError "unreachable")];
              calls := append [] (ByCoords (Some FNaN) (Some (FFin 77)) (Some "k")) |}).
Proof.
  apply (nan_key_is_never_cached (online fair_weather)
           (Coords (Some FNaN) (Some (FFin 77)))
           {| cache := [(Coords (Some FNaN) (Some (FFin 77)), WeatherError "unreachable")];
              calls := [] |}).
  reflexivity.
Defined.

Lemma get_weather_data_within_maxsize (e : env) (loc : location) (w : world) :
  within_maxsize w -> within_maxsize (snd (get_weather_data e loc w)).
Proof.
  unfold within_maxsize, get_weather_data. intro H.
  destruct (cache_find loc (cache w)) as [v|] eqn:E.
  - cbn. pose proof (cache_remove_hit loc (cache w) v E). lia.
  - rewrite get_weather_data_wrapped_run. cbn [snd cache].
    apply firstn_le_length.
Qed.

Lemma get_weather_data_calls (e : env) (loc : location) (w : world) :
  exists extra,
    calls (snd (get_weather_data e loc w)) = (calls w ++ extra)%list /\
    (length extra <= 1)%nat.
Proof.
  unfold get_weather_data.
  destruct (cache_find loc (cache w)) as [v|].
  - exists []. cbn. rewrite app_nil_r. auto.
  - rewrite get_weather_data_wrapped_run. cbn. eexists [_]. split; [reflexivity|]. cbn. lia.
Qed.

(** The engine changes the process state only through the adapter, and the
    route only through the engine. *)
Lemma fertilizer_recommendation_world (e : env) soil_type crop_type land_size fallow
    use_my_location lat lon manual_location (w : world) :
  snd (fertilizer_recommendation e soil_type crop_type land_size fallow
         use_my_location lat lon manual_location w) = w \/
  exists loc,
    snd (fertilizer_recommendation e soil_type crop_type land_size fallow
           use_my_location lat lon manual_location w) = snd (get_weather_data e loc w).
Proof.
  rewrite fertilizer_recommendation_unfold.
  destruct (select SAMPLE_DATA soil_type crop_type) as [|row rest]; [left; reflexivity|].
  unfold resolve_weather.
  destruct (weather_source e use_my_location lat lon manual_location) as [loc|].
  - right. exists loc.
    destruct (get_weather_data e loc w) as [[[s|m]|ex] w']; reflexivity.
  - left. reflexivity.
Qed.

Lemma api_recommend_world (str_num : pyval -> string) (e : env)
    soil_type crop_type land_size fallow use_my_location lat lon manual_location
    (w : world) :
  snd (api_recommend str_num e soil_type crop_type land_size fallow
         use_my_location lat lon manual_location w) =
  snd (fertilizer_recommendation e soil_type crop_type land_size fallow
         use_my_location lat lon manual_location w).
Proof.
  destruct (fertilizer_recommendation_returns e soil_type crop_type land_size fallow
              use_my_location lat lon manual_location w) as (out & w' & H).
  destruct out as [msg|r].
  - rewrite (api_recommend_error str_num _ _ _ _ _ _ _ _ _ _ _ _ H), H. reflexivity.
  - rewrite (api_recommend_rendered str_num _ _ _ _ _ _ _ _ _ _ _ _ H), H. reflexivity.
Qed.

(** The cache never outgrows its bound: a process state with at most 100
    cached locations is left with at most 100 by any request. *)
Theorem route_keeps_cache_within_maxsize (str_num : pyval -> string) (e : env)
    soil_type crop_type land_size fallow use_my_location lat lon manual_location
    (w : world) :
  within_maxsize w ->
  within_maxsize (snd (api_recommend str_num e soil_type crop_type land_size fallow
                         use_my_location lat lon manual_location w)).
Proof.
  intro H. rewrite api_recommend_world.
  destruct (fertilizer_recommendation_world e soil_type crop_type land_size fallow
              use_my_location lat lon manual_location w) as [->|(loc & ->)].
  - exact H.
  - apply get_weather_data_within_maxsize. exact H.
Qed.

Lemma route_keeps_cache_within_maxsize_witness :
  within_maxsize
    (snd (api_recommend plain_str (online fair_weather) "Red" "Rice" (FFin 100) 1
            false None None (Some "Delhi") initial_world)).
Proof.
  apply (route_keeps_cache_within_maxsize plain_str (online fair_weather) "Red" "Rice" (FFin 100) 1
           false None None (Some "Delhi") initial_world).
  unfold within_maxsize, maxsize. cbn. lia.
Defined.

(** No retries: a request extends the log of outbound calls by at most one
    call and never rewrites what was logged. *)
Theorem route_makes_at_most_one_call (str_num : pyval -> string) (e : env)
    soil_type crop_type land_size fallow use_my_location lat lon manual_location
    (w : world) :
  exists extra,
    calls (snd (api_recommend str_num e soil_type crop_type land_size fallow
                  use_my_location lat lon manual_location w)) = (calls w ++ extra)%list /\
    (length extra <= 1)%nat.
Proof.
  rewrite api_recommend_world.
  destruct (fertilizer_recommendation_world e soil_type crop_type land_size fallow
              use_my_location lat lon manual_location w) as [->|(loc & ->)].
  - exists []. rewrite app_nil_r. cbn. auto.
  - apply get_weather_data_calls.
Qed.

(** ** Payloads the adapter rejects, and what it lets through *)

Lemma wrapped_result (e : env) (loc : location) (w : world) (data : pyval) :
  provider e (length (calls w)) (url_of e loc) = Json data ->
  fst (get_weather_data_wrapped e loc w) =
  Ok match normalize data with
     | Ok v => v
     | Raise ex => WeatherError (str_exn ex)
     end.
Proof.
  intro H. rewrite get_weather_data_wrapped_run, H. reflexivity.
Qed.

(** A required field that is missing from the payload is named in the
    error message: the [main] object, its [temp] entry, or (when the rain
    entry is absent) its [humidity] entry, the [wind] object and its [speed]
    entry, each reported as the repr of the key. *)
Theorem missing_field_is_reported (e : env) (loc : location) (w : world)
    (d : list (string * pyval)) :
  provider e (length (calls w)) (url_of e loc) = Json (PDict d) ->
  (assoc "main" d = None ->
     fst (get_weather_data_wrapped e loc w) = Ok (WeatherError "'main'")) /\
  (forall dm, assoc "main" d = Some (PDict dm) -> assoc "temp" dm = None ->
     fst (get_weather_data_wrapped e loc w) = Ok (WeatherError "'temp'")) /\
  (forall dm tv, assoc "main" d = Some (PDict dm) -> assoc "temp" dm = Some tv ->
     assoc "rain" d = None ->
     (assoc "humidity" dm = None ->
        fst (get_weather_data_wrapped e loc w) = Ok (WeatherError "'humidity'")) /\
     (forall hv, assoc "humidity" dm = Some hv ->
        (assoc "wind" d = None ->
           fst (get_weather_data_wrapped e loc w) = Ok (WeatherError "'wind'")) /\
        (forall dw, assoc "wind" d = Some (PDict dw) -> assoc "speed" dw = None ->
           fst (get_weather_data_wrapped e loc w) = Ok (WeatherError "'speed'")))).
Proof.
  intro Hp. rewrite (wrapped_result e loc w _ Hp). unfold normalize.
  split; [|split].
  - intro Hm. cbn. rewrite Hm. reflexivity.
  - intros dm Hm Ht. cbn. rewrite Hm. cbn. rewrite Ht. reflexivity.
  - intros dm tv Hm Ht Hr. cbn. rewrite Hm. cbn. rewrite Ht, Hr. cbn.
    split.
    + intro Hh. rewrite Hh. reflexivity.
    + intros hv Hh. rewrite Hh. cbn. split.
      * intro Hw. rewrite Hw. reflexivity.
      * intros dw Hw Hs. rewrite Hw. cbn. rewrite Hs. reflexivity.
Qed.

Lemma missing_field_is_reported_witness :
  fst (get_weather_data_wrapped
         (online (fun _ _ => Json (PDict [("cod", PNum 401); ("message", PStr "Invalid API key")])))
         (Named (Some "Delhi")) initial_world)
  = Ok (WeatherError "'main'").
Proof.
  apply (proj1 (missing_field_is_reported
                  (online (fun _ _ => Json (PDict [("cod", PNum 401);
                                                    ("message", PStr "Invalid API key")])))
                  (Named (Some "Delhi")) initial_world
                  [("cod", PNum 401); ("message", PStr "Invalid API key")] eq_refl)).
  reflexivity.
Defined.

(** The rain entry must be an object when it is present: a payload that is
    otherwise complete but carries, say, [null] or a number under [rain]
    gives an error dict, not a rainfall of 0. *)
Theorem rain_must_be_an_object (e : env) (loc : location) (w : world)
    (d dm : list (string * pyval)) (tv rv : pyval) :
  provider e (length (calls w)) (url_of e loc) = Json (PDict d) ->
  assoc "main" d = Some (PDict dm) ->
  assoc "temp" dm = Some tv ->
  assoc "rain" d = Some rv ->
  (forall r, rv <> PDict r) ->
  exists msg,
    fst (get_weather_data_wrapped e loc w) = Ok (WeatherError msg) /\
    msg = str_exn (AttributeError ("'" ++ type_name rv ++ "' object has no attribute 'get'")).
Proof.
  intros Hp Hm Ht Hr Hrv. rewrite (wrapped_result e loc w _ Hp). unfold normalize.
  cbn. rewrite Hm. cbn. rewrite Ht, Hr. cbn.
  destruct rv as [| | | | |r]; try (eexists; split; reflexivity).
  exfalso. exact (Hrv r eq_refl).
Qed.

Lemma rain_must_be_an_object_witness :
  exists msg,
    fst (get_weather_data_wrapped
           (online (fun _ _ => Json (PDict [("main", PDict [("temp", PNum 30); ("humidity", PNum 50)]);
                                            ("wind", PDict [("speed", PNum 3)]);
                                            ("rain", PNone)])))
           (Named (Some "Delhi")) initial_world)
    = Ok (WeatherError msg) /\
    msg = "'NoneType' object has no attribute 'get'".
Proof.
  apply (rain_must_be_an_object
           (online (fun _ _ => Json (PDict [("main", PDict [("temp", PNum 30); ("humidity", PNum 50)]);
                                            ("wind", PDict [("speed", PNum 3)]);
                                            ("rain", PNone)])))
           (Named (Some "Delhi")) initial_world
           [("main", PDict [("temp", PNum 30); ("humidity", PNum 50)]);
            ("wind", PDict [("speed", PNum 3)]); ("rain", PNone)]
           [("temp", PNum 30); ("humidity", PNum 50)] (PNum 30) PNone);
    try reflexivity.
  intros r H. discriminate H.
Defined.

(** A number under [rain] is reported under its own type name. *)
Example rain_number_is_refused :
  fst (get_weather_data_wrapped
         (online (fun _ _ => Json (PDict [("main", PDict [("temp", PNum 30); ("humidity", PNum 50)]);
                                          ("wind", PDict [("speed", PNum 3)]);
                                          ("rain", PNum 5)])))
         (Named (Some "Delhi")) initial_world)
  = Ok (WeatherError "'int' object has no attribute 'get'") /\
  fst (get_weather_data_wrapped
         (online (fun _ _ => Json (PDict [("main", PDict [("temp", PNum 30); ("humidity", PNum 50)]);
                                          ("wind", PDict [("speed", PNum 3)]);
                                          ("rain", PNum (FFin (5 # 2)))])))
         (Named (Some "Delhi")) initial_world)
  = Ok (WeatherError "'float' object has no attribute 'get'").
Proof. split; reflexivity. Qed.

Lemma hourly_rain_read (data main rain r1h r : pyval) :
  getitem data "main" = Ok main ->
  get data "rain" (PDict []) = Ok rain ->
  get rain "1h" (PNum 0) = Ok r1h ->
  hourly_rain data = Some r ->
  r1h = r.
Proof.
  intros Hm Hr H1 Hsome.
  destruct data as [| | | | |d]; try discriminate Hm.
  cbn in Hr, Hsome.
  destruct (assoc "rain" d) as [rv|]; [|discriminate Hsome].
  injection Hr as <-.
  destruct rv as [| | | | |rd]; try discriminate Hsome.
  cbn in H1. rewrite Hsome in H1. congruence.
Qed.

(** The rainfall and wind readings are passed through as the provider sent
    them, whatever their type: the snapshot's rainfall is the payload's
    hourly reading when there is one, and its wind speed is the payload's. *)
Theorem readings_pass_through (e : env) (loc : location) (w w' : world) (s : snapshot)
    (data : pyval) :
  get_weather_data_wrapped e loc w = (Ok (WeatherOk s), w') ->
  provider e (length (calls w)) (url_of e loc) = Json data ->
  (forall r, hourly_rain data = Some r -> rainfall s = r) /\
  (wind <- getitem data "wind" ;; getitem wind "speed") = Ok (wind_speed s).
Proof.
  rewrite get_weather_data_wrapped_run. intros [= H _] Hp. rewrite Hp in H.
  destruct (normalize data) as [v|ex] eqn:Hn; [subst v|discriminate H].
  destruct (normalize_inv data s Hn)
    as (main & wind & rain & t & h & Hm & _ & _ & Hw & Hs & Hr & H1 & _).
  split.
  - intros r Hsome. exact (hourly_rain_read data main rain (rainfall s) r Hm Hr H1 Hsome).
  - rewrite Hw. exact Hs.
Qed.

Lemma readings_pass_through_witness :
  (forall r,
     hourly_rain (PDict [("main", PDict [("temp", PNum 30); ("humidity", PNum 50)]);
                         ("wind", PDict [("speed", PStr "calm")]);
                         ("rain", PDict [("1h", PStr "heavy")])]) = Some r ->
     PStr "heavy" = r) /\
  (wind <- getitem (PDict [("main", PDict [("temp", PNum 30); ("humidity", PNum 50)]);
                           ("wind", PDict [("speed", PStr "calm")]);
                           ("rain", PDict [("1h", PStr "heavy")])]) "wind" ;;
   getitem wind "speed") = Ok (PStr "calm").
Proof.
  apply (readings_pass_through
           (online (fun _ _ =>
              Json (PDict [("main", PDict [("temp", PNum 30); ("humidity", PNum 50)]);
                           ("wind", PDict [("speed", PStr "calm")]);
                           ("rain", PDict [("1h", PStr "heavy")])])))
           (Named (Some "Delhi")) initial_world
           {| cache := []; calls := [ByName (Some "Delhi") (Some "k")] |}
           {| temperature := PNum 30; rainfall := PStr "heavy"; humidity := PNum 50;
              wind_speed := PStr "calm"; soil_temp := PNum 28; soil_moisture := PNum 60 |});
    reflexivity.
Defined.

Lemma max_clamped (a : Z) (b : num) :
  value (Py.max a b) <> FNaN /\ value (Py.max a b) <> FInf true /\
  forall q, value (Py.max a b) = FFin q -> (inject_Z a <= q)%Q.
Proof.
  unfold Py.max. destruct (value b) as [|[|]|p] eqn:E; cbn [fgt negb].
  1,2,3: try rewrite E; cbn [value]; repeat split; try discriminate;
         intros q [= <-]; apply Qle_refl.
  destruct (Qgtb p (inject_Z a)) eqn:G.
  - rewrite E. repeat split; try discriminate.
    intros q [= <-]. apply Qgtb_true in G. apply Qlt_le_weak. exact G.
  - cbn [value]. repeat split; try discriminate. intros q [= <-]. apply Qle_refl.
Qed.

Lemma min_clamped (a : Z) (b : num) :
  value (Py.min a b) <> FNaN /\ value (Py.min a b) <> FInf false /\
  forall q, value (Py.min a b) = FFin q -> (q <= inject_Z a)%Q.
Proof.
  unfold Py.min. destruct (value b) as [|[|]|p] eqn:E; cbn [flt].
  1,2,3: try rewrite E; cbn [value]; repeat split; try discriminate;
         intros q [= <-]; apply Qle_refl.
  destruct (Qltb p (inject_Z a)) eqn:G.
  - rewrite E. repeat split; try discriminate.
    intros q [= <-]. apply Qltb_true in G. apply Qlt_le_weak. exact G.
  - cbn [value]. repeat split; try discriminate. intros q [= <-]. apply Qle_refl.
Qed.

(** The derived soil fields of every ok dict the adapter builds are numbers
    inside the clamps, whatever the provider sent: soil temperature is never
    NaN, never minus infinity and, when finite, at least 10; soil moisture is
    never NaN, never plus infinity and, when finite, at most 100.  There is
    no upper clamp on the temperature and no lower clamp on the moisture. *)
Theorem derived_fields_are_clamped (e : env) (loc : location) (w w' : world) (s : snapshot) :
  get_weather_data_wrapped e loc w = (Ok (WeatherOk s), w') ->
  exists st sm : num,
    soil_temp s = PNum st /\ soil_moisture s = PNum sm /\
    value st <> FNaN /\ value st <> FInf true /\
    (forall q, value st = FFin q -> (10 <= q)%Q) /\
    value sm <> FNaN /\ value sm <> FInf false /\
    (forall q, value sm = FFin q -> (q <= 100)%Q).
Proof.
  rewrite get_weather_data_wrapped_run. intros [= H _].
  destruct (provider e (length (calls w)) (url_of e loc)) as [m|m|data];
    try discriminate H.
  destruct (normalize data) as [v|ex] eqn:Hn; [subst v|discriminate H].
  destruct (normalize_inv data s Hn)
    as (main & wind & rain & t2 & h10 & _ & _ & _ & _ & _ & _ & _ & _ & _ & Hst & Hsm).
  exists (Py.max 10 t2), (Py.min 100 h10).
  destruct (max_clamped 10 t2) as (A1 & A2 & A3).
  destruct (min_clamped 100 h10) as (B1 & B2 & B3).
  repeat split; assumption.
Qed.

Lemma derived_fields_are_clamped_witness :
  exists st sm : num,
    PNum (FInf false) = PNum st /\ PNum 100 = PNum sm /\
    value st <> FNaN /\ value st <> FInf true /\
    (forall q, value st = FFin q -> (10 <= q)%Q) /\
    value sm <> FNaN /\ value sm <> FInf false /\
    (forall q, value sm = FFin q -> (q <= 100)%Q).
Proof.
  apply (derived_fields_are_clamped
           (online (fun _ _ => Json (sample_payload (FInf false) FNaN)))
           (Named (Some "Delhi")) initial_world
           {| cache := []; calls := [ByName (Some "Delhi") (Some "k")] |}
           {| temperature := PNum (FInf false); rainfall := PNum 0; humidity := PNum FNaN;
              wind_speed := PNum 3; soil_temp := PNum (FInf false);
              soil_moisture := PNum 100 |}).
  reflexivity.
Defined.

(** ** The engine as a whole *)

(** The fertilizer list is a function of the (soil, crop) pair alone: two
    requests for the same pair that both end in a recommendation get the same
    list, whatever their land size, fallow years, location, credential,
    provider and process state. *)
Theorem fertilizers_depend_on_pair_only (e1 e2 : env) soil_type crop_type
    land1 land2 fallow1 fallow2 use1 use2 lat1 lat2 lon1 lon2 manual1 manual2
    (w1 w1' w2 w2' : world) (r1 r2 : recommendation) :
  fertilizer_recommendation e1 soil_type crop_type land1 fallow1 use1 lat1 lon1 manual1 w1
    = (Ok (Recommendation r1), w1') ->
  fertilizer_recommendation e2 soil_type crop_type land2 fallow2 use2 lat2 lon2 manual2 w2
    = (Ok (Recommendation r2), w2') ->
  fertilizers r1 = fertilizers r2.
Proof.
  rewrite !fertilizer_recommendation_unfold.
  destruct (select SAMPLE_DATA soil_type crop_type) as [|row rest]; [discriminate|].
  destruct (resolve_weather e1 use1 lat1 lon1 manual1 w1) as [[[s1|m1]|ex1] x1];
    try discriminate.
  destruct (resolve_weather e2 use2 lat2 lon2 manual2 w2) as [[[s2|m2]|ex2] x2];
    try discriminate.
  intros [= <- _] [= <- _]. reflexivity.
Qed.

Lemma fertilizers_depend_on_pair_only_witness :
  ["Urea"; "Single Super Phosphate"; "Muriate of Potash"] =
  fertilizers
    {| fertilizers := needed {| Soil_type := "Clay"; Crop_type := "Wheat";
                                Avail_N := 220; Avail_P := 9; Exch_K := 90 |};
       land_size_m2 := FFin 5; fallow_years := 3;
       weather := WeatherOk {| temperature := PNum 30; rainfall := PNum 0;
                               humidity := PNum 50; wind_speed := PNum 3;
                               soil_temp := PNum 28; soil_moisture := PNum 60 |} |}.
Proof.
  apply (fertilizers_depend_on_pair_only offline (online fair_weather) "Clay" "Wheat"
           (FFin 100) (FFin 5) 1 3 false true None (Some (FFin 28)) None (Some (FFin 77)) None None
           initial_world initial_world initial_world
           {| cache := [(Coords (Some (FFin 28)) (Some (FFin 77)),
                         WeatherOk {| temperature := PNum 30; rainfall := PNum 0;
                                      humidity := PNum 50; wind_speed := PNum 3;
                                      soil_temp := PNum 28; soil_moisture := PNum 60 |})];
              calls := [ByCoords (Some (FFin 28)) (Some (FFin 77)) (Some "k")] |}
           {| fertilizers := ["Urea"; "Single Super Phosphate"; "Muriate of Potash"];
              land_size_m2 := FFin 100; fallow_years := 1; weather := default_weather |});
    reflexivity.
Defined.

Lemma engine_through_adapter (e : env) soil_type crop_type land_size fallow
    use_my_location lat lon manual_location (w : world) (loc : location) row rest :
  select SAMPLE_DATA soil_type crop_type = row :: rest ->
  weather_source e use_my_location lat lon manual_location = Some loc ->
  snd (fertilizer_recommendation e soil_type crop_type land_size fallow
         use_my_location lat lon manual_location w) = snd (get_weather_data e loc w) /\
  forall v w', get_weather_data e loc w = (Ok v, w') ->
    fst (fertilizer_recommendation e soil_type crop_type land_size fallow
           use_my_location lat lon manual_location w) =
    Ok match v with
       | WeatherOk s => Recommendation {| fertilizers := needed row;
                                          land_size_m2 := land_size;
                                          fallow_years := fallow;
                                          weather := WeatherOk s |}
       | WeatherError m => ErrorDict m
       end.
Proof.
  intros Hsel Hsrc. rewrite fertilizer_recommendation_unfold, Hsel.
  unfold resolve_weather. rewrite Hsrc. split.
  - destruct (get_weather_data e loc w) as [[[s|m]|ex] w']; reflexivity.
  - intros v w' ->. destruct v; reflexivity.
Qed.

Lemma place_name_source (e : env) use_my_location lat lon (name : string) :
  truthy_str (API_KEY e) = true -> name <> "" ->
  use_my_location = false \/ absent_or_zero lat \/ absent_or_zero lon ->
  weather_source e use_my_location lat lon (Some name) = Some (Named (Some name)).
Proof.
  intros Hk Hn Hloc. unfold weather_source. rewrite Hk.
  assert (Hm : truthy_str (Some name) = true).
  { cbn. destruct (String.eqb name "") eqn:E; [|reflexivity].
    apply String.eqb_eq in E. contradiction. }
  rewrite Hm.
  assert (Hc : use_my_location && truthy_float lat && truthy_float lon = false).
  { destruct Hloc as [->|[H|H]]; [reflexivity| |];
      rewrite (truthy_float_zero _ H); rewrite ?andb_false_r; reflexivity. }
  rewrite Hc. reflexivity.
Qed.

(** For a pair that has a row, with a non-empty credential, the flag set and
    both coordinates non-zero, a cache miss is answered by exactly one
    outbound call, the coordinate query carrying the credential, whether or
    not a place name was given as well. *)
Theorem nonzero_coordinates_are_queried (e : env) soil_type crop_type land_size fallow
    (la lo : float) manual_location (w : world) row rest :
  select SAMPLE_DATA soil_type crop_type = row :: rest ->
  truthy_str (API_KEY e) = true -> nonzero la -> nonzero lo ->
  cache_find (Coords (Some la) (Some lo)) (cache w) = None ->
  calls (snd (fertilizer_recommendation e soil_type crop_type land_size fallow
                true (Some la) (Some lo) manual_location w))
  = append (calls w) (ByCoords (Some la) (Some lo) (API_KEY e)).
Proof.
  intros Hsel Hk Hla Hlo Hmiss.
  pose proof (coordinates_take_precedence e la lo manual_location Hk Hla Hlo) as Hsrc.
  rewrite (proj1 (engine_through_adapter e soil_type crop_type land_size fallow
                    true (Some la) (Some lo) manual_location w _ row rest Hsel Hsrc)).
  destruct (get_weather_data_miss e _ w Hmiss) as (v & ->). reflexivity.
Qed.

Lemma nonzero_coordinates_are_queried_witness :
  calls (snd (fertilizer_recommendation (online fair_weather) "Red" "Rice" (FFin 100) 1
                true (Some (FFin 28)) (Some (FFin 77)) (Some "Delhi") initial_world))
  = append [] (ByCoords (Some (FFin 28)) (Some (FFin 77)) (Some "k")).
Proof.
  apply (nonzero_coordinates_are_queried (online fair_weather) "Red" "Rice" (FFin 100) 1
           (FFin 28) (FFin 77) (Some "Delhi") initial_world
           {| Soil_type := "Red"; Crop_type := "Rice";
              Avail_N := 250; Avail_P := 8; Exch_K := 100 |} []);
    try reflexivity; intro H; discriminate H.
Defined.

(** For a pair that has a row, with a non-empty credential and a non-empty
    place name, whenever the coordinates are not used (flag unset, or a
    coordinate missing or zero) a cache miss is answered by exactly one
    outbound call, the place-name query carrying the credential. *)
Theorem place_name_is_queried (e : env) soil_type crop_type land_size fallow
    use_my_location lat lon (name : string) (w : world) row rest :
  select SAMPLE_DATA soil_type crop_type = row :: rest ->
  truthy_str (API_KEY e) = true -> name <> "" ->
  use_my_location = false \/ absent_or_zero lat \/ absent_or_zero lon ->
  cache_find (Named (Some name)) (cache w) = None ->
  calls (snd (fertilizer_recommendation e soil_type crop_type land_size fallow
                use_my_location lat lon (Some name) w))
  = append (calls w) (ByName (Some name) (API_KEY e)).
Proof.
  intros Hsel Hk Hn Hloc Hmiss.
  pose proof (place_name_source e use_my_location lat lon name Hk Hn Hloc) as Hsrc.
  rewrite (proj1 (engine_through_adapter e soil_type crop_type land_size fallow
                    use_my_location lat lon (Some name) w _ row rest Hsel Hsrc)).
  destruct (get_weather_data_miss e _ w Hmiss) as (v & ->). reflexivity.
Qed.

Lemma place_name_is_queried_witness :
  calls (snd (fertilizer_recommendation (online fair_weather) "Red" "Rice" (FFin 100) 1
                false (Some (FFin 28)) (Some (FFin 77)) (Some "Delhi") initial_world))
  = append [] (ByName (Some "Delhi") (Some "k")).
Proof.
  apply (place_name_is_queried (online fair_weather) "Red" "Rice" (FFin 100) 1
           false (Some (FFin 28)) (Some (FFin 77)) "Delhi" initial_world
           {| Soil_type := "Red"; Crop_type := "Rice";
              Avail_N := 250; Avail_P := 8; Exch_K := 100 |} []);
    try reflexivity.
  - intro H. discriminate H.
  - left. reflexivity.
Defined.

(** A provider failure on a cache miss fails the request with the
    provider's message, and the failure is stored: the error dict becomes the
    cached answer for that location. *)
Theorem provider_failure_is_returned_and_cached (e : env) soil_type crop_type
    land_size fallow use_my_location lat lon manual_location (w : world)
    (loc : location) row rest (m : string) :
  select SAMPLE_DATA soil_type crop_type = row :: rest ->
  weather_source e use_my_location lat lon manual_location = Some loc ->
  cache_find loc (cache w) = None ->
  provider e (length (calls w)) (url_of e loc) = NetworkFailure m \/
  provider e (length (calls w)) (url_of e loc) = NotJSON m ->
  fertilizer_recommendation e soil_type crop_type land_size fallow
    use_my_location lat lon manual_location w =
  (Ok (ErrorDict m),
   {| cache := firstn maxsize ((loc, WeatherError m) :: cache w);
      calls := append (calls w) (url_of e loc) |}).
Proof.
  intros Hsel Hsrc Hmiss Hfail.
  assert (Hrun : get_weather_data e loc w =
                 (Ok (WeatherError m),
                  {| cache := firstn maxsize ((loc, WeatherError m) :: cache w);
                     calls := append (calls w) (url_of e loc) |})).
  { unfold get_weather_data. rewrite Hmiss, get_weather_data_wrapped_run.
    destruct Hfail as [-> | ->]; reflexivity. }
  rewrite fertilizer_recommendation_unfold, Hsel.
  unfold resolve_weather. rewrite Hsrc, Hrun. reflexivity.
Qed.

Lemma provider_failure_is_returned_and_cached_witness :
  fertilizer_recommendation (online down) "Red" "Rice" (FFin 100) 1
    false None None (Some "Delhi") initial_world =
  (Ok (ErrorDict "unreachable"),
   {| cache := firstn maxsize [(Named (Some "Delhi"), WeatherError "unreachable")];
      calls := append [] (ByName (Some "Delhi") (Some "k")) |}).
Proof.
  apply (provider_failure_is_returned_and_cached (online down) "Red" "Rice" (FFin 100) 1
           false None None (Some "Delhi") initial_world (Named (Some "Delhi"))
           {| Soil_type := "Red"; Crop_type := "Rice";
              Avail_N := 250; Avail_P := 8; Exch_K := 100 |} [] "unreachable");
    try reflexivity.
  left. reflexivity.
Defined.

Lemma weather_source_without_nan (e : env) use_my_location lat lon manual_location
    (loc : location) :
  is_nan lat = false -> is_nan lon = false ->
  weather_source e use_my_location lat lon manual_location = Some loc ->
  holds_nan loc = false.
Proof.
  intros Hla Hlo. unfold weather_source.
  destruct (_ || _); [|discriminate].
  destruct (_ && _); intros [= <-]; cbn; [rewrite Hla, Hlo|]; reflexivity.
Qed.

(** Repeating a request whose coordinates are not NaN right after it was
    served gives the same engine result without any outbound call, also when
    the provider has changed in the meantime: a failed lookup stays failed
    and weather does not refresh. *)
Theorem repeated_request_is_served_from_cache (e e' : env) soil_type crop_type
    land_size fallow use_my_location lat lon manual_location (w w' : world)
    (out : engine_dict) :
  API_KEY e' = API_KEY e ->
  is_nan lat = false -> is_nan lon = false ->
  fertilizer_recommendation e soil_type crop_type land_size fallow
    use_my_location lat lon manual_location w = (Ok out, w') ->
  exists w'',
    fertilizer_recommendation e' soil_type crop_type land_size fallow
      use_my_location lat lon manual_location w' = (Ok out, w'') /\
    calls w'' = calls w'.
Proof.
  intros Hkey Hla Hlo. rewrite !fertilizer_recommendation_unfold.
  destruct (select SAMPLE_DATA soil_type crop_type) as [|row rest].
  { intros [= <- <-]. eexists. split; reflexivity. }
  unfold resolve_weather, weather_source. rewrite Hkey.
  fold (weather_source e use_my_location lat lon manual_location).
  destruct (weather_source e use_my_location lat lon manual_location) as [loc|] eqn:Hsrc.
  - pose proof (weather_source_without_nan e _ _ _ _ loc Hla Hlo Hsrc) as Hnan.
    destruct (get_weather_data e loc w) as [[v|ex] w1] eqn:Hrun.
    2:{ intro H. discriminate H. }
    intro H. assert (Hw : w1 = w') by (destruct v; congruence). subst w1.
    rewrite (get_weather_data_again e e' loc w w' v Hnan Hrun).
    destruct v as [s|m]; injection H as <-; eexists; split; reflexivity.
  - unfold mret. intros [= <- <-]. eexists. split; reflexivity.
Qed.

Lemma repeated_request_is_served_from_cache_witness :
  exists w'',
    fertilizer_recommendation (online fair_weather) "Red" "Rice" (FFin 100) 1
      false None None (Some "Delhi")
      {| cache := firstn maxsize [(Named (Some "Delhi"), WeatherError "unreachable")];
         calls := append [] (ByName (Some "Delhi") (Some "k")) |}
    = (Ok (ErrorDict "unreachable"), w'') /\
    calls w'' = append [] (ByName (Some "Delhi") (Some "k")).
Proof.
  apply (repeated_request_is_served_from_cache (online down) (online fair_weather)
           "Red" "Rice" (FFin 100) 1 false None None (Some "Delhi") initial_world
           {| cache := firstn maxsize [(Named (Some "Delhi"), WeatherError "unreachable")];
              calls := append [] (ByName (Some "Delhi") (Some "k")) |}
           (ErrorDict "unreachable")); reflexivity.
Defined.

(** Without a usable credential (unset, or set to the empty string) every
    valid query for a pair that has a row, with a finite land size, is
    answered 200, offline: the default snapshot is embedded, the process
    state is untouched, and the message carries the dry-conditions line
    alone, normal soil conditions, the plan for the row and the fallow
    note. *)
Theorem offline_request_is_answered_200 (str_num : pyval -> string) (e : env)
    (q : query) (req : request) (w : world) row rest :
  validate q = Some req ->
  is_finite (r_land_size req) = true ->
  API_KEY e = None \/ API_KEY e = Some "" ->
  select SAMPLE_DATA (r_soil_type req) (r_crop_type req) = row :: rest ->
  route str_num e q w =
  ({| status_code := 200;
      content := JsonAdvisory
        {| body := {| fertilizers := needed row;
                      land_size_m2 := r_land_size req;
                      fallow_years := r_fallow_years req;
                      weather := default_weather |};
           farmer_message :=
             compile_message (str_num (PNum (r_land_size req)))
               (str_of_int (r_fallow_years req))
               (str_num (PNum 23)) (str_num (PNum 50))
               [dry_line] [] (fert_advice_of (needed row))
               (fallow_msg_of (r_fallow_years req)) |} |},
   w).
Proof.
  intros Hq Hfin Hkey Hsel. unfold route. rewrite Hq.
  assert (Hsrc : weather_source e (r_use_my_location req) (r_lat req) (r_lon req)
                   (r_manual_location req) = None).
  { unfold weather_source. destruct Hkey as [-> | ->]; cbn [truthy_str String.eqb negb];
      rewrite !andb_false_r; reflexivity. }
  destruct (default_when_no_source e (r_soil_type req) (r_crop_type req) (r_land_size req)
              (r_fallow_years req) (r_use_my_location req) (r_lat req) (r_lon req)
              (r_manual_location req) w Hsrc) as (_ & out & Hrun & Hout).
  rewrite (Hout row rest Hsel) in Hrun.
  rewrite (api_recommend_rendered str_num _ _ _ _ _ _ _ _ _ _ _ _ Hrun).
  cbn [generate_farmer_message]. unfold respond, advisory_compliant.
  cbn [body land_size_m2 weather]. rewrite Hfin. reflexivity.
Qed.

Lemma offline_request_is_answered_200_witness :
  route plain_str offline
    {| q_soil_type := Parsed "Black"; q_crop_type := Parsed "Cotton";
       q_land_size := Parsed (FFin 100); q_fallow_years := Parsed 2;
       q_use_my_location := Parsed true; q_lat := Parsed (FFin 28);
       q_lon := Parsed (FFin 77); q_manual_location := Parsed "Delhi" |}
    initial_world =
  ({| status_code := 200;
      content := JsonAdvisory
        {| body := {| fertilizers := [];
                      land_size_m2 := FFin 100;
                      fallow_years := 2;
                      weather := default_weather |};
           farmer_message :=
             compile_message "0" "2" "0" "0" [dry_line] [] []
               "⚠️ **Long fallow period!** Plant green manure crops." |} |},
   initial_world).
Proof.
  apply (offline_request_is_answered_200 plain_str offline
           {| q_soil_type := Parsed "Black"; q_crop_type := Parsed "Cotton";
              q_land_size := Parsed (FFin 100); q_fallow_years := Parsed 2;
              q_use_my_location := Parsed true; q_lat := Parsed (FFin 28);
              q_lon := Parsed (FFin 77); q_manual_location := Parsed "Delhi" |}
           {| r_soil_type := "Black"; r_crop_type := "Cotton";
              r_land_size := FFin 100; r_fallow_years := 2;
              r_use_my_location := true; r_lat := Some (FFin 28);
              r_lon := Some (FFin 77); r_manual_location := Some "Delhi" |}
           initial_world
           {| Soil_type := "Black"; Crop_type := "Cotton";
              Avail_N := 300; Avail_P := 12; Exch_K := 120 |} []).
  - reflexivity.
  - reflexivity.
  - left. reflexivity.
  - reflexivity.
Defined.

(** An infinite land size passes validation and the handler, and is
    refused by the serialiser. *)
Example infinite_land_size_answers_plain_500 :
  route plain_str offline
    {| q_soil_type := Parsed "Black"; q_crop_type := Parsed "Cotton";
       q_land_size := Parsed (FInf false); q_fallow_years := Parsed 2;
       q_use_my_location := Absent; q_lat := Absent; q_lon := Absent;
       q_manual_location := Absent |} initial_world
  = ({| status_code := 500; content := InternalServerError |}, initial_world).
Proof. reflexivity. Qed.
